(** * research_bot.py: a shallow embedding and its verified properties

    The script is a Streamlit page: one BibTeX formatter ([generate_bibtex])
    and one button handler that queries Google Scholar (through
    [scholarly.search_pubs]) or DuckDuckGo (through [DDGS().text]), turns the
    Scholar records into result dictionaries and writes the page.

    Conventions of the embedding.
    - A Python [str] is a [string]; one character of it stands for one code
      point below 256.  The decorative emoji of the page labels are left out
      of the label literals for that reason.
    - A Python [int] is a [Z].
    - A Python dictionary with text keys is a [gmap string _]; [d.get(k, v)]
      is [default v (d !! k)] and [d[k]] raises [KeyError] on a missing key.
    - An exception is the [Raise] case of [res]; a function that may raise
      returns a [res].  Formatting an [int] of more than 4300 digits raises
      [ValueError], as in CPython.
    - The libraries the script calls (scholarly, duckduckgo_search, pandas,
      datetime) are taken as an environment of functions, see [Env]. *)

From Stdlib Require Import ZArith String Ascii DecimalString DecimalZ Lia.
From stdpp Require Import gmap strings list fin_maps.

Local Open Scope string_scope.
Local Open Scope Z_scope.

(** ** Python values and the builtins the script uses *)

Module Py.

Inductive error : Type :=
| StopIteration
| TypeError
| AttributeError
| IndexError
| KeyError
| ValueError.

Inductive res (A : Type) : Type :=
| Ok (a : A)
| Raise (e : error).
Arguments Ok {A} a.
Arguments Raise {A} e.

Definition is_ok {A : Type} (r : res A) : bool :=
  match r with Ok _ => true | Raise _ => false end.

Definition from_res {A : Type} (r : res A) : option A :=
  match r with Ok a => Some a | Raise _ => None end.

(** The values a field of a record can hold: [None], an [int], a [str]. *)
Inductive scalar : Type :=
| SNone
| SInt (n : Z)
| SStr (s : string).

(** The decimal numeral of an integer, with [-] in front of a negative
    one. *)
Definition numeral (n : Z) : string :=
  NilZero.string_of_int (Z.to_int n).

(** CPython does not convert an [int] of more than 4300 decimal digits to
    a text (the default of [sys.set_int_max_str_digits]; the sign does not
    count). *)
Definition max_str_digits : Z := 4300.

Definition too_long (n : Z) : bool :=
  max_str_digits <? Z.of_nat (String.length (numeral (Z.abs n))).

(** [str(n)] for an [int], which is also what an f-string field [{n}]
    inserts: the numeral, or [ValueError] beyond the limit. *)
Definition str_of_int (n : Z) : res string :=
  if too_long n then Raise ValueError else Ok (numeral n).

(** The text of a value: what [str(v)] returns when it returns. *)
Definition text_of (v : scalar) : string :=
  match v with
  | SNone => "None"
  | SInt n => numeral n
  | SStr s => s
  end.

(** The value can be converted to a text. *)
Definition formattable (v : scalar) : bool :=
  match v with
  | SInt n => negb (too_long n)
  | _ => true
  end.

(** [str(v)], which is what an f-string field [{v}] inserts. *)
Definition str (v : scalar) : res string :=
  match v with
  | SInt n => str_of_int n
  | _ => Ok (text_of v)
  end.

(** [bool(v)], the truth value used by [if v] and [v1 if v else v2]. *)
Definition truthy (v : scalar) : bool :=
  match v with
  | SNone => false
  | SInt n => negb (n =? 0)
  | SStr s => negb (String.eqb s "")
  end.

(** [v != s] for a text literal [s]: a value that is not text differs. *)
Definition ne_str (v : scalar) (s : string) : bool :=
  match v with
  | SStr t => negb (String.eqb t s)
  | _ => true
  end.

(** [s[:n]]. *)
Fixpoint slice_to (n : nat) (s : string) : string :=
  match n, s with
  | S k, String c s' => String c (slice_to k s')
  | _, _ => ""
  end.

(** [sep.join(l)] for a list of texts. *)
Definition join (sep : string) (l : list string) : string :=
  String.concat sep l.

(** [sep.join(l)] for a list of values: [TypeError] unless all are text. *)
Fixpoint texts (l : list scalar) : res (list string) :=
  match l with
  | [] => Ok []
  | SStr s :: l' =>
      match texts l' with
      | Ok ss => Ok (s :: ss)
      | Raise e => Raise e
      end
  | _ :: _ => Raise TypeError
  end.

Definition join_values (sep : string) (l : list scalar) : res string :=
  match texts l with
  | Ok ss => Ok (join sep ss)
  | Raise e => Raise e
  end.

(** [s.split(sep)] for a non-empty [sep]: cut at the occurrences of [sep],
    found from left to right without overlap.  [skip] counts the
    characters of a separator still to pass over, [cur] is the piece
    being read. *)
Fixpoint split_from (sep : string) (skip : nat) (cur s : string)
  : list string :=
  match s with
  | "" => [cur]
  | String c s' =>
      match skip with
      | S k => split_from sep k cur s'
      | O =>
          if String.prefix sep s
          then cur :: split_from sep (String.length sep - 1) "" s'
          else split_from sep 0 (cur +:+ String c "") s'
      end
  end.

Definition split (s sep : string) : list string := split_from sep 0 "" s.

(** [c.isspace()] on the code points below 256. *)
Definition isspace (c : ascii) : bool :=
  let n := N_of_ascii c in
  ((9 <=? n) && (n <=? 13) || (28 <=? n) && (n <=? 32)
   || (n =? 133) || (n =? 160))%N.

(** [s.split()]: the maximal runs of characters that are not whitespace. *)
Fixpoint split_ws_from (cur s : string) : list string :=
  match s with
  | "" => if String.eqb cur "" then [] else [cur]
  | String c s' =>
      if isspace c
      then (if String.eqb cur "" then split_ws_from "" s'
            else cur :: split_ws_from "" s')
      else split_ws_from (cur +:+ String c "") s'
  end.

Definition split_ws (s : string) : list string := split_ws_from "" s.

(** [l[-1]]. *)
Definition last_item (l : list string) : res string :=
  match List.last (Some <$> l) None with
  | Some x => Ok x
  | None => Raise IndexError
  end.

(** [re.sub(r'[{}]', '', s)]: drop every character of the class. *)
Definition is_brace (c : ascii) : bool :=
  (Ascii.eqb c "{" || Ascii.eqb c "}")%char.

Fixpoint re_sub_braces (s : string) : string :=
  match s with
  | "" => ""
  | String c s' =>
      if is_brace c then re_sub_braces s' else String c (re_sub_braces s')
  end.

(** The character [c] occurs in [s]. *)
Fixpoint occurs (c : ascii) (s : string) : bool :=
  match s with
  | "" => false
  | String c' s' => Ascii.eqb c c' || occurs c s'
  end.

(** [s] holds whitespace only. *)
Fixpoint all_space (s : string) : bool :=
  match s with
  | "" => true
  | String c s' => isspace c && all_space s'
  end.

Definition nl : string := String (ascii_of_nat 10) "".

End Py.
Import Py.

(** [res] is the error monad: a raised exception ends the computation. *)
#[global] Instance res_ret : MRet res := fun _ a => Ok a.
#[global] Instance res_bind : MBind res := fun _ _ f m =>
  match m with
  | Ok a => f a
  | Raise e => Raise e
  end.

#[global] Instance res_fmap : FMap res := fun _ _ f m =>
  match m with
  | Ok a => Ok (f a)
  | Raise e => Raise e
  end.

(** ** The result dictionary and [generate_bibtex] (lines 27-51) *)

(** A result is a Python [dict] from field names to values. *)
Abbreviation result_dict := (gmap string scalar).

(** [result] is a reference to a mutable dictionary, so the body of
    [generate_bibtex] is a computation over the dictionary it was handed:
    it may raise, and it returns the dictionary as it leaves it. *)
Definition OnDict (A : Type) : Type := result_dict -> res A * result_dict.

#[global] Instance OnDict_ret : MRet OnDict := fun _ a d => (Ok a, d).
#[global] Instance OnDict_bind : MBind OnDict := fun _ _ f m d =>
  match m d with
  | (Ok a, d') => f a d'
  | (Raise e, d') => (Raise e, d')
  end.

(** [result.get(key, dflt)]. *)
Definition dict_get (key : string) (dflt : scalar) : OnDict scalar :=
  fun d => (Ok (default dflt (d !! key)), d).

(** A step that does not touch the dictionary. *)
Definition pure_step {A : Type} (r : res A) : OnDict A := fun d => (r, d).

(** [re.sub(r'[{}]', '', title)] (line 34): the pattern needs a text. *)
Definition sanitize (title : scalar) : res string :=
  match title with
  | SStr s => Ok (re_sub_braces s)
  | _ => Raise TypeError
  end.

(** [authors.split(', ')] (line 37): only a text has the method. *)
Definition split_authors (authors : scalar) : res (list string) :=
  match authors with
  | SStr s => Ok (split s ", ")
  | _ => Raise AttributeError
  end.

(** Line 38. *)
Definition bibtex_author_of (author_list : list string) : string :=
  match author_list with
  | [] => "Unknown Author"
  | _ :: _ => join " and " author_list
  end.

(** Line 41:
    [author_list[0].split()[-1] if author_list and author_list[0] else 'unknown']. *)
Definition first_author_of (author_list : list string) : res string :=
  match author_list with
  | [] => Ok "unknown"
  | a :: _ => if String.eqb a "" then Ok "unknown" else last_item (split_ws a)
  end.

(** [year if year != 'N/A' else 'unknown'] as an f-string field
    (lines 42 and 48). *)
Definition year_or_unknown (year : scalar) : res string :=
  if ne_str year "N/A" then str year else Ok "unknown".

(** Line 42: the three fields of the f-string, from left to right. *)
Definition bibtex_key_of (first_author : string) (year : scalar) (index : Z)
  : res string :=
  year_text ← year_or_unknown year;
  index_text ← str_of_int index;
  mret (first_author +:+ year_text +:+ index_text).

(** [url if url else 'N/A'] as an f-string field (line 49). *)
Definition url_or_na (url : scalar) : res string :=
  if truthy url then str url else Ok "N/A".

(** The five values that lines 45-50 splice into the entry. *)
Record entry : Type := Entry {
  bibtex_key : string;
  bibtex_title : string;
  bibtex_author : string;
  bibtex_year : string;
  bibtex_url : string
}.

(** The f-string of lines 45-50. *)
Definition render (e : entry) : string :=
  "@article{" +:+ bibtex_key e +:+ "," +:+ nl
  +:+ "    title = {" +:+ bibtex_title e +:+ "}," +:+ nl
  +:+ "    author = {" +:+ bibtex_author e +:+ "}," +:+ nl
  +:+ "    year = {" +:+ bibtex_year e +:+ "}," +:+ nl
  +:+ "    url = {" +:+ bibtex_url e +:+ "}" +:+ nl
  +:+ "}".

(** Lines 28-42, and the values of lines 46-49. *)
Definition bibtex_entry (index : Z) : OnDict entry :=
  title ← dict_get "Title" (SStr "Untitled");
  authors ← dict_get "Authors" (SStr "Unknown Author");
  year ← dict_get "Year" (SStr "N/A");
  url ← dict_get "URL" (SStr "");
  title ← pure_step (sanitize title);
  author_list ← pure_step (split_authors authors);
  first_author ← pure_step (first_author_of author_list);
  key ← pure_step (bibtex_key_of first_author year index);
  year_field ← pure_step (year_or_unknown year);
  url_field ← pure_step (url_or_na url);
  mret {| bibtex_key := key;
          bibtex_title := title;
          bibtex_author := bibtex_author_of author_list;
          bibtex_year := year_field;
          bibtex_url := url_field |}.

(** [generate_bibtex(result, index)]: the returned text (or the exception
    raised) and the dictionary [result] refers to after the call. *)
Definition generate_bibtex (result : result_dict) (index : Z)
  : res string * result_dict :=
  (e ← bibtex_entry index; mret (render e)) result.

(** The text alone, and the entry alone. *)
Definition bibtex_text (result : result_dict) (index : Z) : res string :=
  fst (generate_bibtex result index).

Definition entry_of (result : result_dict) (index : Z) : res entry :=
  fst (bibtex_entry index result).

(** The first-author part and the year part of the key of a result: the
    expressions of lines 41 and 42 on the fields of [result], the year part
    being the text that the f-string inserts when it can format the
    year. *)
Definition first_author_in (result : result_dict) : res string :=
  author_list ← split_authors (default (SStr "Unknown Author") (result !! "Authors"));
  first_author_of author_list.

Definition year_text (year : scalar) : string :=
  if ne_str year "N/A" then text_of year else "unknown".

Definition year_in (result : result_dict) : string :=
  year_text (default (SStr "N/A") (result !! "Year")).

(** The url field of the entry of a result: the text of the expression of
    line 49. *)
Definition url_text (url : scalar) : string :=
  if truthy url then text_of url else "N/A".

Definition url_in (result : result_dict) : string :=
  url_text (default (SStr "") (result !! "URL")).

(** ** The raw records of the two providers *)

(** A publication as [scholarly] yields it: a dictionary with the nested
    dictionary ['bib'].  A key that may be missing is an [option]; the
    author list is a list whose items need not be text. *)
Module Scholarly.

Record Bib : Type := {
  title : option scalar;
  author : option (list scalar);
  pub_year : option scalar;
  abstract : option scalar
}.

Record Publication : Type := {
  bib : option Bib;
  num_citations : option scalar;
  eprint_url : option scalar;
  pub_url : option scalar
}.

(** The [{}] of [pub.get('bib', {})]. *)
Definition no_bib : Bib :=
  {| title := None; author := None; pub_year := None; abstract := None |}.

End Scholarly.

(** ** The Scholar branch: building [results] (lines 115-131) *)

(** The dictionary literal of lines 122-129.  Its items are evaluated in
    order; only [", ".join(...)] can raise. *)
Definition normalize_pub (pub : Scholarly.Publication) : res result_dict :=
  let bib := default Scholarly.no_bib (Scholarly.bib pub) in
  authors ← join_values ", " (default [] (Scholarly.author bib));
  mret (<["Title" := default (SStr "N/A") (Scholarly.title bib)]>
        (<["Authors" := SStr authors]>
        (<["Year" := default (SStr "N/A") (Scholarly.pub_year bib)]>
        (<["Cited By" := default (SInt 0) (Scholarly.num_citations pub)]>
        (<["Abstract" := default (SStr "N/A") (Scholarly.abstract bib)]>
        (<["URL" := default (default (SStr "N/A") (Scholarly.pub_url pub))
                            (Scholarly.eprint_url pub)]> ∅)))))).

(** The loop of lines 117-131.  [search_query] is one iterator object: the
    [for] statement (through [enumerate]) and the call [next(search_query)]
    in the body both advance it, so the argument is what the iterator still
    has to yield.  [i] is the counter of [enumerate], [results] the list
    built so far.
    - the [for] statement takes an item, or ends the loop when there is none;
    - [if i >= num_results: break];
    - [next(search_query)] takes the following item, or raises
      [StopIteration], which the [except] clause turns into [break];
    - the [try] block also covers the dictionary literal: the [except]
      clause catches a [StopIteration] only, any other exception leaves the
      loop and the handler. *)
Fixpoint scholar_loop (num_results i : Z)
  (search_query : list Scholarly.Publication) (results : list result_dict)
  : res (list result_dict) :=
  match search_query with
  | [] => Ok results
  | _result :: after_for =>
      if num_results <=? i then Ok results
      else
        match after_for with
        | [] => Ok results
        | pub :: after_next =>
            match normalize_pub pub with
            | Raise StopIteration => Ok results
            | Raise e => Raise e
            | Ok r => scholar_loop num_results (i + 1) after_next (results ++ [r])%list
            end
        end
  end.

(** Lines 115-131. *)
Definition scholar_results (num_results : Z)
  (search_query : list Scholarly.Publication) : res (list result_dict) :=
  scholar_loop num_results 0 search_query [].

(** ** The page *)

(** What the handler does to the outside: the calls to the two providers
    and the Streamlit calls, in the order they are made. *)
Inductive event : Type :=
| CallSearchPubs (query : string)
| CallDdgsText (query : string) (max_results : Z)
| StSpinner (text : string)
| StSubheader (body : string)
| StExpander (label : string)
| StWrite (body : string)
| StMarkdown (body : string)
| StDownloadButton (label data file_name : string) (mime : option string)
| StWarning (body : string).

(** The libraries behind the handler. *)
Record Env : Type := {
  (** [scholarly.search_pubs(query)]: the items the iterator yields. *)
  search_pubs : string -> list Scholarly.Publication;
  (** [DDGS().text(query, max_results=n)]. *)
  ddgs_text : string -> Z -> list result_dict;
  (** [datetime.now().strftime('%Y%m%d_%H%M%S')] at the [k]-th reading of
      the clock in one run. *)
  strftime_now : nat -> string;
  (** [pd.DataFrame(rows).to_csv(index=False)]. *)
  to_csv : list result_dict -> string
}.

(** A computation of the handler: it reads the clock (the state is the
    number of readings so far), makes calls and may raise; the calls made
    before an exception stay made. *)
Definition UI (A : Type) : Type := nat -> list event * nat * res A.

#[global] Instance UI_ret : MRet UI := fun _ a t => ([], t, Ok a).
#[global] Instance UI_bind : MBind UI := fun _ _ f m t =>
  match m t with
  | (evs, t', Ok a) =>
      let '(evs', t'', r) := f a t' in ((evs ++ evs')%list, t'', r)
  | (evs, t', Raise e) => (evs, t', Raise e)
  end.

Definition emit (e : event) : UI unit := fun t => ([e], t, Ok tt).

Definition lift_res {A : Type} (r : res A) : UI A := fun t => ([], t, r).

Definition read_clock (env : Env) : UI string :=
  fun t => ([], S t, Ok (strftime_now env t)).

(** [for i, x in enumerate(l): body(i, x)], counting from [i]. *)
Fixpoint for_enumerate {A : Type} (body : Z -> A -> UI unit) (i : Z)
  (l : list A) : UI unit :=
  match l with
  | [] => mret tt
  | x :: l' => body i x ;; for_enumerate body (i + 1) l'
  end.

(** [d[key]]. *)
Definition item (d : result_dict) (key : string) : res scalar :=
  match d !! key with
  | Some v => Ok v
  | None => Raise KeyError
  end.

(** The argument of [st.write] on line 139:
    [f"**Abstract:** {a[:200]}..." if len(a) > 200 else a]. *)
Definition abstract_text (a : scalar) : res string :=
  match a with
  | SStr s =>
      if 200 <? Z.of_nat (String.length s)
      then Ok ("**Abstract:** " +:+ slice_to 200 s +:+ "...")
      else Ok s
  | _ => Raise TypeError
  end.

(** The argument of [st.write] on line 165:
    [f"**Snippet:** {body[:150]}..."]. *)
Definition snippet_text (body : scalar) : res string :=
  match body with
  | SStr s => Ok ("**Snippet:** " +:+ slice_to 150 s +:+ "...")
  | _ => Raise TypeError
  end.

(** The body of the loop of lines 135-149. *)
Definition show_scholar_result (env : Env) (idx : Z) (result : result_dict)
  : UI unit :=
  title ← lift_res (item result "Title" ≫= str);
  cited ← lift_res (item result "Cited By" ≫= str);
  emit (StExpander ("**" +:+ title +:+ "** (Cited: " +:+ cited +:+ ")"));;
  authors ← lift_res (item result "Authors" ≫= str);
  emit (StWrite ("**Authors:** " +:+ authors));;
  year ← lift_res (item result "Year" ≫= str);
  emit (StWrite ("**Year:** " +:+ year));;
  abstract ← lift_res (item result "Abstract");
  text ← lift_res (abstract_text abstract);
  emit (StWrite text);;
  url ← lift_res (item result "URL");
  (if truthy url
   then target ← lift_res (str url);
        emit (StMarkdown ("[View Paper](" +:+ target +:+ ")"))
   else mret tt);;
  bibtex_content ← lift_res (fst (generate_bibtex result idx));
  number ← lift_res (str_of_int (idx + 1));
  stamp ← read_clock env;
  emit (StDownloadButton "Download BibTeX" bibtex_content
          ("citation_" +:+ number +:+ "_" +:+ stamp +:+ ".bib")
          (Some "text/bib")).

(** The body of the loop of lines 163-166. *)
Definition show_web_result (result : result_dict) : UI unit :=
  title ← lift_res (item result "title" ≫= str);
  emit (StExpander ("**" +:+ title +:+ "**"));;
  body ← lift_res (item result "body");
  text ← lift_res (snippet_text body);
  emit (StWrite text);;
  href ← lift_res (item result "href" ≫= str);
  emit (StMarkdown ("[Visit Site](" +:+ href +:+ ")")).

(** [if rows: st.download_button(label, df.to_csv(index=False), name)]
    (lines 152-154 and 169-171). *)
Definition csv_button (env : Env) (prefix : string) (rows : list result_dict)
  : UI unit :=
  match rows with
  | [] => mret tt
  | _ :: _ =>
      stamp ← read_clock env;
      emit (StDownloadButton "Download as CSV" (to_csv env rows)
              (prefix +:+ stamp +:+ ".csv") None)
  end.

(** Lines 113-154. *)
Definition scholar_branch (env : Env) (num_results : Z) (query : string)
  : UI unit :=
  emit (CallSearchPubs query);;
  results ← lift_res (scholar_results num_results (search_pubs env query));
  emit (StSubheader ("Scholar Results for '" +:+ query +:+ "'"));;
  for_enumerate (show_scholar_result env) 0 results;;
  csv_button env "scholar_results_" results.

(** Lines 156-171. *)
Definition web_branch (env : Env) (num_results : Z) (query : string)
  : UI unit :=
  emit (CallDdgsText query num_results);;
  let web_results := ddgs_text env query num_results in
  emit (StSubheader ("Web Results for '" +:+ query +:+ "'"));;
  for_enumerate (fun _ => show_web_result) 0 web_results;;
  csv_button env "web_results_" web_results.

(** Lines 110-174: what a press of the Search button does, given the
    settings of the sidebar and the text of the input box. *)
Definition on_search (env : Env) (search_type : string) (num_results : Z)
  (query : string) : UI unit :=
  if negb (String.eqb query "")
  then
    emit (StSpinner "Fetching results...");;
    (if String.eqb search_type "Google Scholar"
     then scholar_branch env num_results query
     else web_branch env num_results query)
  else emit (StWarning "Please enter a query to start your research!").

(** The calls a run made, and those of them that went to a provider. *)
Definition calls {A : Type} (m : UI A) : list event := fst (fst (m 0%nat)).

Definition outcome {A : Type} (m : UI A) : res A := snd (m 0%nat).

Definition is_provider_call (e : event) : bool :=
  match e with
  | CallSearchPubs _ | CallDdgsText _ _ => true
  | _ => false
  end.

(** The items of an iterator that the loop of lines 117-131 obtains through
    [next(search_query)]: one item goes to the [for] statement, the
    following one to [next], and so on. *)
Fixpoint taken_by_next {A : Type} (search_query : list A) : list A :=
  match search_query with
  | _ :: pub :: after_next => pub :: taken_by_next after_next
  | _ => []
  end.

(** The data and the file names of the BibTeX download buttons among the
    calls of a run. *)
Definition bibtex_button (e : event) : option (string * string) :=
  match e with
  | StDownloadButton label data file_name _ =>
      if String.eqb label "Download BibTeX" then Some (data, file_name) else None
  | _ => None
  end.

Definition bibtex_data (evs : list event) : list string :=
  fst <$> omap bibtex_button evs.

Definition bibtex_file_names (evs : list event) : list string :=
  snd <$> omap bibtex_button evs.

(** ** Notions used to state the further properties *)

(** The fields that lines 42-49 format can be formatted: the year unless it
    is the text N/A, the ordinal, and the url when it is truthy. *)
Definition year_formattable (year : scalar) : bool :=
  negb (ne_str year "N/A") || formattable year.

Definition url_formattable (url : scalar) : bool :=
  negb (truthy url) || formattable url.

Definition fields_formattable (result : result_dict) (index : Z) : bool :=
  year_formattable (default (SStr "N/A") (result !! "Year"))
  && negb (too_long index)
  && url_formattable (default (SStr "") (result !! "URL")).

(** The value is a text. *)
Definition is_text (v : scalar) : bool :=
  match v with SStr _ => true | _ => false end.

(** The author list of a publication, as line 124 reads it. *)
Definition authors_of (pub : Scholarly.Publication) : list scalar :=
  default [] (Scholarly.author (default Scholarly.no_bib (Scholarly.bib pub))).

(** The text [", "] occurs in [s]. *)
Fixpoint has_comma_space (s : string) : bool :=
  match s with
  | "" => false
  | String c s' => String.prefix ", " s || has_comma_space s'
  end.

(** No character of [s] is whitespace. *)
Fixpoint no_space (s : string) : bool :=
  match s with
  | "" => true
  | String c s' => negb (isspace c) && no_space s'
  end.

(** A web record that lines 164-166 can show: the three keys are there,
    the title and the link can be converted to a text and the body is a
    text. *)
Definition web_ok (result : result_dict) : bool :=
  match result !! "title", result !! "body", result !! "href" with
  | Some title, Some (SStr _), Some href => formattable title && formattable href
  | _, _, _ => false
  end.

Definition is_expander (e : event) : bool :=
  match e with StExpander _ => true | _ => false end.

Definition is_download (e : event) : bool :=
  match e with StDownloadButton _ _ _ _ => true | _ => false end.

(** The number of readings of the clock in a run. *)
Definition clock_readings {A : Type} (m : UI A) : nat := snd (fst (m 0%nat)).

(** The three lines that lines 164-166 add to the page for a web record
    with the title, the body text and the link given. *)
Definition web_lines (result : result_dict) : list event :=
  [StExpander ("**" +:+ text_of (default SNone (result !! "title")) +:+ "**");
   StWrite ("**Snippet:** "
            +:+ slice_to 150 (text_of (default SNone (result !! "body"))) +:+ "...");
   StMarkdown ("[Visit Site](" +:+ text_of (default SNone (result !! "href")) +:+ ")")].

Definition is_markdown (e : event) : bool :=
  match e with StMarkdown _ => true | _ => false end.

(** ** Records used in the examples *)

Module Samples.

(** The record of the specification's example, with the fields of the
    bibliography under ['bib'] where [scholarly] puts them. *)
Definition deep_learning : Scholarly.Publication :=
  {| Scholarly.bib := Some
       {| Scholarly.title := Some (SStr "Deep Learning");
          Scholarly.author := Some [SStr "Ian Goodfellow"; SStr "Yoshua Bengio"];
          Scholarly.pub_year := Some (SInt 2016);
          Scholarly.abstract := Some (SStr "") |};
     Scholarly.num_citations := Some (SInt 50000);
     Scholarly.eprint_url := Some (SStr "");
     Scholarly.pub_url := None |}.

Definition attention : Scholarly.Publication :=
  {| Scholarly.bib := Some
       {| Scholarly.title := Some (SStr "Attention Is All You Need");
          Scholarly.author := Some [SStr "Ashish Vaswani"; SStr "Noam Shazeer"];
          Scholarly.pub_year := Some (SStr "2017");
          Scholarly.abstract := Some (SStr "The dominant sequence models") |};
     Scholarly.num_citations := Some (SInt 90000);
     Scholarly.eprint_url := None;
     Scholarly.pub_url := Some (SStr "http://papers.example/attention") |}.

(** A record whose author list holds a [None]. *)
Definition malformed : Scholarly.Publication :=
  {| Scholarly.bib := Some
       {| Scholarly.title := Some (SStr "Untitled Draft");
          Scholarly.author := Some [SNone];
          Scholarly.pub_year := None;
          Scholarly.abstract := None |};
     Scholarly.num_citations := None;
     Scholarly.eprint_url := None;
     Scholarly.pub_url := None |}.

Definition result_of (title authors : string) (year : scalar) (cited : Z)
  (abstract url : string) : result_dict :=
  <["Title" := SStr title]> (<["Authors" := SStr authors]>
  (<["Year" := year]> (<["Cited By" := SInt cited]>
  (<["Abstract" := SStr abstract]> (<["URL" := SStr url]> ∅))))).

(** The result the script builds from [deep_learning]. *)
Definition goodfellow : result_dict :=
  result_of "Deep Learning" "Ian Goodfellow, Yoshua Bengio" (SInt 2016) 50000
    "" "".

(** The result the script builds from [attention]. *)
Definition vaswani : result_dict :=
  result_of "Attention Is All You Need" "Ashish Vaswani, Noam Shazeer"
    (SStr "2017") 90000 "The dominant sequence models"
    "http://papers.example/attention".

Definition turing : result_dict :=
  result_of "On Computable Numbers" "Alan Turing" (SStr "N/A") 0 "N/A"
    "http://papers.example/turing".

Definition braces : result_dict :=
  result_of "Neural {Nets} Revisited" "Ada Lovelace" (SStr "1843") 0 "N/A" "".

(** A publication whose year is the integer 10^4300, of 4301 digits. *)
Definition long_year : Scholarly.Publication :=
  {| Scholarly.bib := Some
       {| Scholarly.title := Some (SStr "Far Future");
          Scholarly.author := Some [SStr "Ada Lovelace"];
          Scholarly.pub_year := Some (SInt (10 ^ 4300));
          Scholarly.abstract := None |};
     Scholarly.num_citations := None;
     Scholarly.eprint_url := None;
     Scholarly.pub_url := None |}.

(** A publication whose only author is one space, and the result the
    script builds from it. *)
Definition blank_pub : Scholarly.Publication :=
  {| Scholarly.bib := Some
       {| Scholarly.title := Some (SStr "Notes");
          Scholarly.author := Some [SStr " "];
          Scholarly.pub_year := Some (SStr "2020");
          Scholarly.abstract := None |};
     Scholarly.num_citations := None;
     Scholarly.eprint_url := None;
     Scholarly.pub_url := Some (SStr "http://papers.example/notes") |}.

Definition blank_author : result_dict :=
  result_of "Notes" " " (SStr "2020") 0 "N/A" "http://papers.example/notes".

Definition web_short : result_dict :=
  <["title" := SStr "X"]> (<["body" := SStr "abc"]>
  (<["href" := SStr "http://x"]> ∅)).

Definition env_of (pubs : list Scholarly.Publication) (stamp : string) : Env :=
  {| search_pubs := fun _ => pubs;
     ddgs_text := fun _ _ => [web_short];
     strftime_now := fun _ => stamp;
     to_csv := fun _ => "" |}.

End Samples.

(** ** Tactics *)

(** Unfold the steps of a computation over a dictionary, and of the page. *)
Ltac unfold_dict_monad :=
  unfold mbind, mret, OnDict_bind, OnDict_ret, res_bind, res_ret,
    dict_get, pure_step in *.

Ltac unfold_ui_monad :=
  unfold mbind, mret, UI_bind, UI_ret, emit, lift_res, read_clock in *.

(** * Properties *)

(** ** The builtins on examples *)

Example split_two_authors :
  split "Ian Goodfellow, Yoshua Bengio" ", " = ["Ian Goodfellow"; "Yoshua Bengio"].
Proof. reflexivity. Qed.

Example split_of_empty : split "" ", " = [""].
Proof. reflexivity. Qed.

Example split_keeps_empty_pieces : split "a, , b, " ", " = ["a"; ""; "b"; ""].
Proof. reflexivity. Qed.

Example split_ws_name :
  split_ws "  Ian  J. Goodfellow " = ["Ian"; "J."; "Goodfellow"].
Proof. reflexivity. Qed.

Example split_ws_of_blank : split_ws "  " = [].
Proof. reflexivity. Qed.

Example str_of_int_examples :
  (str_of_int 2016, str_of_int (-7), str_of_int 0)
  = (Ok "2016", Ok "-7", Ok "0").
Proof. reflexivity. Qed.

(** ** Texts *)

Section Texts.

Implicit Types s t u : string.

Lemma app_cons (c : ascii) s t : String c s +:+ t = String c (s +:+ t).
Proof. reflexivity. Qed.

Lemma app_assoc_text s t u : (s +:+ t) +:+ u = s +:+ (t +:+ u).
Proof. induction s as [|c s IH]; [done | by rewrite !app_cons, IH]. Qed.

Lemma app_eq_empty s t : s +:+ t = "" -> s = "" /\ t = "".
Proof. destruct s; [done | rewrite app_cons; discriminate]. Qed.

(** Two texts that end with one character each agree on it. *)
Lemma app_last_char_inj s t (a b : ascii) :
  s +:+ String a "" = t +:+ String b "" -> s = t /\ a = b.
Proof.
  revert t. induction s as [|c s IH]; intros [|d t] E;
    rewrite ?app_cons in E; change ("" +:+ ?x) with x in E.
  - by inversion E.
  - inversion E as [[E1 E2]]. symmetry in E2.
    apply app_eq_empty in E2 as [_ ?]. discriminate.
  - inversion E as [[E1 E2]].
    apply app_eq_empty in E2 as [_ ?]. discriminate.
  - inversion E as [[E1 E2]]. apply IH in E2 as [-> ->]. done.
Qed.

Lemma length_slice_to n s : (String.length s <= n)%nat -> slice_to n s = s.
Proof.
  revert n. induction s as [|c s IH]; intros [|n] H; simpl in *; try done.
  - lia.
  - rewrite IH; [done | lia].
Qed.

End Texts.

(** ** Numerals *)

Lemma to_int_not_nil (n : Z) :
  Z.to_int n <> Decimal.Pos Decimal.Nil /\ Z.to_int n <> Decimal.Neg Decimal.Nil.
Proof.
  destruct n as [|p|p]; simpl; split; try discriminate;
    intros E; injection E as E; by apply DecimalPos.Unsigned.to_uint_nonnil in E.
Qed.

(** Different integers print differently. *)
Lemma numeral_inj (m n : Z) : numeral m = numeral n -> m = n.
Proof.
  unfold numeral. intros E.
  apply (f_equal NilZero.int_of_string) in E.
  destruct (to_int_not_nil m) as [Hm1 Hm2], (to_int_not_nil n) as [Hn1 Hn2].
  rewrite !NilZero.isi in E by done.
  injection E as E. by apply DecimalZ.to_int_inj.
Qed.

(** An integer from 0 to 9 prints as one character. *)
Lemma numeral_digit (n : Z) :
  0 <= n < 10 -> exists c : ascii, numeral n = String c "".
Proof.
  intros H.
  assert (Forall (fun d => exists c : ascii, numeral d = String c "")
            (seqZ 0 10)) as Hall
    by (repeat constructor; eexists; reflexivity).
  rewrite Forall_forall in Hall. apply Hall, elem_of_seqZ. lia.
Qed.

(** The numeral of 10^n is a [1] followed by [n] zeros, so 10^n has
    [n + 1] digits. *)
Lemma numeral_pow10 (n : nat) :
  numeral (10 ^ Z.of_nat n)
  = NilZero.string_of_uint (Decimal.D1 (Nat.iter n Decimal.D0 Decimal.Nil)).
Proof.
  assert (10 ^ Z.of_nat n
          = Z.of_int (Decimal.Pos (Decimal.D1 (Nat.iter n Decimal.D0 Decimal.Nil))))
    as ->.
  { change (Decimal.Pos (Decimal.D1 (Nat.iter n Decimal.D0 Decimal.Nil)))
      with (Decimal.app_int (Decimal.Pos (Decimal.D1 Decimal.Nil))
              (Nat.iter n Decimal.D0 Decimal.Nil)).
    rewrite DecimalZ.of_int_iter_D0.
    change (Z.of_int (Decimal.Pos (Decimal.D1 Decimal.Nil))) with 1.
    induction n as [|n IH]; [done|].
    rewrite Nat2Z.inj_succ, Z.pow_succ_r by lia.
    rewrite IH. by rewrite DecimalPos.Unsigned.nat_iter_S. }
  unfold numeral. by rewrite DecimalZ.to_of.
Qed.

Lemma length_zeros (n : nat) :
  String.length (NilEmpty.string_of_uint (Nat.iter n Decimal.D0 Decimal.Nil)) = n.
Proof.
  induction n as [|n IH]; [done|].
  rewrite DecimalPos.Unsigned.nat_iter_S. simpl. by rewrite IH.
Qed.

(** 10^n is beyond the limit of the conversion exactly when it has more
    than 4300 digits. *)
Lemma too_long_pow10 (n : nat) :
  too_long (10 ^ Z.of_nat n) = (max_str_digits <? Z.of_nat (S n)).
Proof.
  unfold too_long. rewrite Z.abs_eq by (apply Z.pow_nonneg; lia).
  rewrite numeral_pow10.
  change (NilZero.string_of_uint (Decimal.D1 (Nat.iter n Decimal.D0 Decimal.Nil)))
    with (String "1" (NilEmpty.string_of_uint (Nat.iter n Decimal.D0 Decimal.Nil))).
  change (String.length (String "1" ?s)) with (S (String.length s)).
  by rewrite length_zeros.
Qed.

Lemma too_long_4301_digits : too_long (10 ^ 4300) = true.
Proof. exact (too_long_pow10 4300). Qed.

(** ** [generate_bibtex] *)

(** Formatting a value gives its text, or [ValueError] for an integer
    beyond the limit. *)
Lemma str_spec (v : scalar) :
  str v = if formattable v then Ok (text_of v) else Raise ValueError.
Proof. destruct v as [|n|s]; try done. simpl. unfold str_of_int. by destruct (too_long n). Qed.

Lemma year_or_unknown_spec (year : scalar) :
  year_or_unknown year
  = if year_formattable year then Ok (year_text year) else Raise ValueError.
Proof.
  unfold year_or_unknown, year_formattable, year_text. rewrite str_spec.
  by destruct (ne_str year "N/A"), (formattable year).
Qed.

Lemma url_or_na_spec (url : scalar) :
  url_or_na url
  = if url_formattable url then Ok (url_text url) else Raise ValueError.
Proof.
  unfold url_or_na, url_formattable, url_text. rewrite str_spec.
  by destruct (truthy url), (formattable url).
Qed.

Lemma bibtex_key_of_spec (first_author : string) (year : scalar) (index : Z) :
  bibtex_key_of first_author year index
  = if year_formattable year && negb (too_long index)
    then Ok (first_author +:+ year_text year +:+ numeral index)
    else Raise ValueError.
Proof.
  unfold bibtex_key_of, mbind, res_bind, mret, res_ret, str_of_int.
  rewrite year_or_unknown_spec.
  by destruct (year_formattable year), (too_long index).
Qed.

(** [generate_bibtex] hands back the dictionary it was given. *)
Lemma bibtex_entry_frame (result : result_dict) (index : Z) :
  snd (bibtex_entry index result) = result.
Proof.
  unfold bibtex_entry. unfold_dict_monad.
  destruct (sanitize _); [|done].
  destruct (split_authors _) as [al|]; [|done].
  destruct (first_author_of al); [|done].
  destruct (bibtex_key_of _ _ _); [|done].
  destruct (year_or_unknown _); [|done].
  destruct (url_or_na _); done.
Qed.

Lemma generate_bibtex_frame (result : result_dict) (index : Z) :
  snd (generate_bibtex result index) = result.
Proof.
  unfold generate_bibtex.
  pose proof (bibtex_entry_frame result index) as H.
  unfold mbind, mret, OnDict_bind, OnDict_ret.
  destruct (bibtex_entry index result) as [[e|err] d]; simpl in *; done.
Qed.

(** The steps of [generate_bibtex], one after the other. *)
Lemma entry_of_spec (result : result_dict) (index : Z) :
  entry_of result index
  = match sanitize (default (SStr "Untitled") (result !! "Title")) with
    | Raise err => Raise err
    | Ok title =>
        match split_authors
                (default (SStr "Unknown Author") (result !! "Authors")) with
        | Raise err => Raise err
        | Ok author_list =>
            match first_author_of author_list with
            | Raise err => Raise err
            | Ok first_author =>
                if fields_formattable result index
                then Ok {| bibtex_key :=
                             first_author +:+ year_in result +:+ numeral index;
                           bibtex_title := title;
                           bibtex_author := bibtex_author_of author_list;
                           bibtex_year := year_in result;
                           bibtex_url := url_in result |}
                else Raise ValueError
            end
        end
    end.
Proof.
  unfold entry_of, bibtex_entry, fields_formattable, year_in, url_in.
  unfold mbind, mret, OnDict_bind, OnDict_ret, dict_get, pure_step.
  destruct (sanitize _) as [title|]; [|done].
  destruct (split_authors _) as [al|]; [|done].
  destruct (first_author_of al) as [fa|]; [|done].
  rewrite bibtex_key_of_spec, year_or_unknown_spec, url_or_na_spec.
  destruct (year_formattable _); [|done].
  destruct (too_long index); [done|].
  by destruct (url_formattable _).
Qed.

(** An entry exists exactly when the three steps that may raise return and
    the fields can be formatted. *)
Lemma entry_of_iff (result : result_dict) (index : Z) (e : entry) :
  entry_of result index = Ok e <->
  exists title author_list first_author,
    sanitize (default (SStr "Untitled") (result !! "Title")) = Ok title
    /\ split_authors (default (SStr "Unknown Author") (result !! "Authors"))
       = Ok author_list
    /\ first_author_of author_list = Ok first_author
    /\ fields_formattable result index = true
    /\ e = {| bibtex_key := first_author +:+ year_in result +:+ numeral index;
              bibtex_title := title;
              bibtex_author := bibtex_author_of author_list;
              bibtex_year := year_in result;
              bibtex_url := url_in result |}.
Proof.
  rewrite entry_of_spec.
  destruct (sanitize _) as [title|].
  2: { split; [done | intros (? & ? & ? & E & ?); discriminate E]. }
  destruct (split_authors _) as [al|].
  2: { split; [done | intros (? & ? & ? & ? & E & ?); discriminate E]. }
  destruct (first_author_of al) as [fa|] eqn:Hfa.
  2: { split; [done | intros (? & ? & ? & ? & [= <-] & E & ?); congruence]. }
  destruct (fields_formattable result index).
  2: { split; [done | intros (? & ? & ? & ? & ? & ? & E & ?); discriminate E]. }
  split.
  - intros [= <-]. by exists title, al, fa.
  - intros (? & ? & ? & [= <-] & [= <-] & E & _ & ->). congruence.
Qed.

(** What an entry is made of, when there is one. *)
Lemma entry_of_Ok (result : result_dict) (index : Z) (e : entry) :
  entry_of result index = Ok e ->
  exists title author_list first_author,
    sanitize (default (SStr "Untitled") (result !! "Title")) = Ok title
    /\ split_authors (default (SStr "Unknown Author") (result !! "Authors"))
       = Ok author_list
    /\ first_author_of author_list = Ok first_author
    /\ e = {| bibtex_key := first_author +:+ year_in result +:+ numeral index;
              bibtex_title := title;
              bibtex_author := bibtex_author_of author_list;
              bibtex_year := year_in result;
              bibtex_url := url_in result |}.
Proof.
  intros (title & al & fa & ? & ? & ? & _ & ->)%entry_of_iff.
  by exists title, al, fa.
Qed.

(** The text is the entry, rendered. *)
Lemma bibtex_text_render (result : result_dict) (index : Z) :
  bibtex_text result index = render <$> entry_of result index.
Proof.
  unfold bibtex_text, generate_bibtex, entry_of.
  unfold mbind, mret, OnDict_bind, OnDict_ret.
  destruct (bibtex_entry index result) as [[e|err] d]; done.
Qed.

Lemma entry_of_key (result : result_dict) (index : Z) (e : entry) :
  entry_of result index = Ok e ->
  exists first_author,
    first_author_in result = Ok first_author
    /\ bibtex_key e = first_author +:+ year_in result +:+ numeral index.
Proof.
  intros (title & al & fa & _ & Hal & Hfa & ->)%entry_of_Ok.
  exists fa. split; [|done].
  unfold first_author_in, mbind, res_bind. by rewrite Hal.
Qed.

(** Keys with the same first-author and year parts differ with the ordinal. *)
Lemma keys_differ_same_parts (p : string) (i j : Z) :
  i <> j -> p +:+ numeral i <> p +:+ numeral j.
Proof. intros Hij E. apply String.app_inj in E. by apply numeral_inj in E. Qed.

(** Keys whose ordinals have one digit differ with the ordinal. *)
Lemma keys_differ_one_digit (p q : string) (i j : Z) :
  0 <= i < 10 -> 0 <= j < 10 -> i <> j ->
  p +:+ numeral i <> q +:+ numeral j.
Proof.
  intros Hi Hj Hij E.
  destruct (numeral_digit i Hi) as [c Hc], (numeral_digit j Hj) as [d Hd].
  rewrite Hc, Hd in E. apply app_last_char_inj in E as [_ ->].
  apply Hij, numeral_inj. by rewrite Hc, Hd.
Qed.

(** ** Title sanitization *)

Lemma re_sub_braces_no_brace (c : ascii) (title : string) :
  is_brace c = true -> occurs c (re_sub_braces title) = false.
Proof.
  intros Hc. induction title as [|a title IH]; simpl; [done|].
  destruct (is_brace a) eqn:Ha; [done|]. simpl. rewrite IH, orb_false_r.
  apply Ascii.eqb_neq. intros ->. congruence.
Qed.

Lemma re_sub_braces_id (title : string) :
  occurs "{" title = false -> occurs "}" title = false ->
  re_sub_braces title = title.
Proof.
  induction title as [|a title IH]; [done|]. cbn [occurs re_sub_braces].
  intros [H1 H2]%orb_false_elim [H3 H4]%orb_false_elim.
  unfold is_brace. rewrite (Ascii.eqb_sym a "{"), H1, (Ascii.eqb_sym a "}"), H3.
  cbn [orb]. by rewrite IH.
Qed.

Lemma re_sub_braces_app (s t : string) :
  re_sub_braces (s +:+ t) = re_sub_braces s +:+ re_sub_braces t.
Proof.
  induction s as [|a s IH]; [done|]. rewrite app_cons. simpl.
  destruct (is_brace a); [done|]. by rewrite app_cons, IH.
Qed.

(** ** The year placeholder (C3) *)

(** C3, as stated, fails: the claim has the year field of the entry keep
    the literal N/A when the Year of the result is N/A.  For the result
    [Samples.turing], whose Year is N/A, the entry that [generate_bibtex]
    returns has the year field [unknown], so no entry with the year field
    N/A is produced. *)
Lemma C3_year_field_is_unknown :
  Samples.turing !! "Year" = Some (SStr "N/A")
  /\ bibtex_text Samples.turing 0
     = Ok ("@article{Turingunknown0," +:+ nl
           +:+ "    title = {On Computable Numbers}," +:+ nl
           +:+ "    author = {Alan Turing}," +:+ nl
           +:+ "    year = {unknown}," +:+ nl
           +:+ "    url = {http://papers.example/turing}" +:+ nl
           +:+ "}")
  /\ ~ (exists e, entry_of Samples.turing 0 = Ok e /\ bibtex_year e = "N/A").
Proof.
  split; [reflexivity|]. split; [reflexivity|].
  intros (e & He & Hy). vm_compute in He. injection He as <-. discriminate Hy.
Qed.

(** C3, amended: when the Year of a result is the text N/A, the key of its
    entry is the first-author part, then [unknown], then the ordinal, and
    the year field of the entry is [unknown] as well; the text N/A stays in
    the Year of the result, which the call leaves as it was.  A result with
    the authors "Ian Goodfellow, Yoshua Bengio" and the year 2016 (as an
    integer or as a text) has the key Goodfellow20160 at ordinal 0. *)
Theorem C3_year_placeholder :
  (forall (result : result_dict) (index : Z) (e : entry),
      result !! "Year" = Some (SStr "N/A") ->
      entry_of result index = Ok e ->
      (exists first_author,
          first_author_in result = Ok first_author
          /\ bibtex_key e = first_author +:+ "unknown" +:+ numeral index)
      /\ bibtex_year e = "unknown"
      /\ bibtex_text result index = Ok (render e)
      /\ snd (generate_bibtex result index) !! "Year" = Some (SStr "N/A"))
  /\ (forall (result : result_dict) (year : scalar) (e : entry),
         result !! "Authors" = Some (SStr "Ian Goodfellow, Yoshua Bengio") ->
         result !! "Year" = Some year ->
         year = SInt 2016 \/ year = SStr "2016" ->
         entry_of result 0 = Ok e ->
         bibtex_key e = "Goodfellow20160").
Proof.
  split.
  - intros result index e Hyear He.
    assert (year_in result = "unknown") as Hy.
    { unfold year_in. by rewrite Hyear. }
    split; [|split; [|split]].
    + destruct (entry_of_key _ _ _ He) as (fa & Hfa & Hk).
      exists fa. by rewrite Hk, Hy.
    + apply entry_of_Ok in He as (? & ? & ? & _ & _ & _ & ->). done.
    + by rewrite bibtex_text_render, He.
    + by rewrite generate_bibtex_frame.
  - intros result year e Hauthors Hyear Hy He.
    destruct (entry_of_key _ _ _ He) as (fa & Hfa & ->).
    unfold first_author_in in Hfa. rewrite Hauthors in Hfa.
    vm_compute in Hfa. injection Hfa as <-.
    unfold year_in. rewrite Hyear. by destruct Hy as [-> | ->].
Qed.

Lemma C3_year_placeholder_witness :
  (exists first_author,
      first_author_in Samples.turing = Ok first_author
      /\ bibtex_key (Entry "Turingunknown0" "On Computable Numbers" "Alan Turing"
                       "unknown" "http://papers.example/turing")
         = first_author +:+ "unknown" +:+ numeral 0)
  /\ bibtex_key (Entry "Goodfellow20160" "Deep Learning"
                   "Ian Goodfellow and Yoshua Bengio" "2016" "N/A")
     = "Goodfellow20160".
Proof.
  split.
  - apply (proj1 C3_year_placeholder Samples.turing 0); reflexivity.
  - apply (proj2 C3_year_placeholder Samples.goodfellow (SInt 2016));
      [reflexivity | reflexivity | by left | reflexivity].
Defined.

(** The page writes the Year of a result as it is. *)
Lemma year_line_keeps_value (env : Env) (idx : Z) (result : result_dict)
  (title cited authors year : scalar) :
  result !! "Title" = Some title -> result !! "Cited By" = Some cited ->
  result !! "Authors" = Some authors -> result !! "Year" = Some year ->
  formattable title = true -> formattable cited = true ->
  formattable authors = true -> formattable year = true ->
  StWrite ("**Year:** " +:+ text_of year)
  ∈ calls (show_scholar_result env idx result).
Proof.
  intros Ht Hc Ha Hy Hft Hfc Hfa Hfy. unfold calls, show_scholar_result, item.
  rewrite Ht, Hc, Ha, Hy. unfold_ui_monad. unfold res_bind.
  rewrite !str_spec, Hft, Hfc, Hfa, Hfy.
  assert (forall rest : list event,
             StWrite ("**Year:** " +:+ text_of year)
             ∈ StExpander ("**" +:+ text_of title +:+ "** (Cited: "
                            +:+ text_of cited +:+ ")")
               :: StWrite ("**Authors:** " +:+ text_of authors)
               :: StWrite ("**Year:** " +:+ text_of year) :: rest) as Hin.
  { intros rest. do 2 apply list_elem_of_further. apply list_elem_of_here. }
  destruct (result !! "Abstract") as [abstract|]; [|apply Hin].
  destruct (abstract_text abstract); [|apply Hin].
  destruct (result !! "URL") as [u|]; [|apply Hin].
  destruct (truthy u); [destruct (str u)|];
    destruct (generate_bibtex result idx) as [[text|] d];
    try destruct (str_of_int (idx + 1)); simpl; apply Hin.
Qed.

(** ** Braces in the title (C7) *)

(** C7: the sanitization of line 34 leaves no brace in a title, changes
    nothing else (a title without braces is returned as it is, and the
    sanitization of a concatenation is the concatenation of the
    sanitizations), and it is the sanitized title that the entry and the
    returned text carry; "Neural {Nets} Revisited" becomes
    "Neural Nets Revisited". *)
Theorem C7_title_without_braces :
  (forall title : string,
      sanitize (SStr title) = Ok (re_sub_braces title)
      /\ occurs "{" (re_sub_braces title) = false
      /\ occurs "}" (re_sub_braces title) = false)
  /\ (forall title : string,
         occurs "{" title = false -> occurs "}" title = false ->
         re_sub_braces title = title)
  /\ (forall s t : string,
         re_sub_braces (s +:+ t) = re_sub_braces s +:+ re_sub_braces t)
  /\ (forall (result : result_dict) (index : Z) (title : string) (e : entry),
         result !! "Title" = Some (SStr title) ->
         entry_of result index = Ok e ->
         bibtex_title e = re_sub_braces title
         /\ bibtex_text result index = Ok (render e))
  /\ sanitize (SStr "Neural {Nets} Revisited") = Ok "Neural Nets Revisited".
Proof.
  split; [|split; [|split; [|split]]].
  - intros title. split; [done|].
    split; by apply re_sub_braces_no_brace.
  - apply re_sub_braces_id.
  - apply re_sub_braces_app.
  - intros result index title e Ht He. split.
    + apply entry_of_Ok in He as (t & ? & ? & Hs & _ & _ & ->).
      rewrite Ht in Hs. simpl in Hs. by injection Hs as <-.
    + by rewrite bibtex_text_render, He.
  - reflexivity.
Qed.

Lemma C7_title_without_braces_witness :
  re_sub_braces "Plain Title" = "Plain Title"
  /\ bibtex_title (Entry "Lovelace18430" "Neural Nets Revisited" "Ada Lovelace"
                     "1843" "N/A")
     = re_sub_braces "Neural {Nets} Revisited".
Proof.
  destruct C7_title_without_braces as (_ & Hid & _ & Hentry & _).
  split.
  - apply Hid; reflexivity.
  - apply (Hentry Samples.braces 0); reflexivity.
Defined.

(** ** When [generate_bibtex] returns (C9) *)

Lemma split_ws_from_nil (cur s : string) :
  split_ws_from cur s = [] <-> cur = "" /\ all_space s = true.
Proof.
  revert cur. induction s as [|c s IH]; intros cur; simpl.
  - destruct (String.eqb_spec cur ""); split; try done; intros []; done.
  - destruct (isspace c); simpl.
    + destruct (String.eqb_spec cur "") as [->|Hne].
      * rewrite IH. tauto.
      * split; [done | intros []; done].
    + rewrite IH. split; [|intros []; done].
      intros [H _]. destruct cur; discriminate H.
Qed.

Lemma last_item_Ok (l : list string) :
  l <> [] -> exists x, last_item l = Ok x.
Proof.
  unfold last_item. induction l as [|a [|b l] IH]; intros H; [done| |].
  - by exists a.
  - apply IH. done.
Qed.

(** The first-author part exists unless the first piece of the author text
    is not empty and holds whitespace only. *)
Lemma first_author_of_Raise (author_list : list string) (err : error) :
  first_author_of author_list = Raise err <->
  err = IndexError
  /\ exists a rest, author_list = a :: rest /\ a <> "" /\ all_space a = true.
Proof.
  destruct author_list as [|a rest]; simpl.
  { split; [done | intros (_ & ? & ? & ? & _); done]. }
  destruct (String.eqb_spec a "") as [->|Hne].
  { split; [done | intros (_ & ? & ? & [= <- _] & ? & _); done]. }
  destruct (split_ws a) as [|x l] eqn:Hws.
  - apply split_ws_from_nil in Hws as [_ Hsp]. unfold last_item. simpl. split.
    + intros [= <-]. split; [done|]. by exists a, rest.
    + by intros [-> _].
  - destruct (last_item_Ok (x :: l)) as [y ->]; [done|].
    split; [done|]. intros (_ & ? & ? & [= <- _] & _ & Hsp).
    assert (split_ws a = []) as E by (by apply split_ws_from_nil).
    congruence.
Qed.

(** Every call hands the dictionary back unchanged, and a call on a result
    whose Title and Authors are texts returns a text unless the first
    author is blank or a field cannot be formatted. *)
Lemma generate_bibtex_returns (result : result_dict) (index : Z)
  (title authors : string) :
  result !! "Title" = Some (SStr title) ->
  result !! "Authors" = Some (SStr authors) ->
  (forall a rest, split authors ", " = a :: rest -> a = "" \/ all_space a = false) ->
  fields_formattable result index = true ->
  exists text, generate_bibtex result index = (Ok text, result).
Proof.
  intros Ht Ha Hfirst Hfmt.
  destruct (first_author_of (split authors ", ")) as [fa|err] eqn:Hfa.
  - assert (exists e, entry_of result index = Ok e) as [e He].
    { eexists. apply entry_of_iff.
      exists (re_sub_braces title), (split authors ", "), fa.
      rewrite Ht, Ha. done. }
    exists (render e).
    apply injective_projections; [|apply generate_bibtex_frame].
    change (bibtex_text result index = Ok (render e)).
    by rewrite bibtex_text_render, He.
  - apply first_author_of_Raise in Hfa as (_ & a & rest & Hsplit & Hne & Hsp).
    destruct (Hfirst a rest Hsplit) as [-> | Hns]; [done | congruence].
Qed.

(** C9: the call [generate_bibtex(result, 0)] on the result
    [Samples.blank_author], whose fields are all texts and whose author text
    is one space, does not return a text: line 41 raises [IndexError].  The
    dictionary is left as it was.  The page reaches that call from a
    publication whose author list is the one text " ", and the press of
    the button ends with the exception. *)
Theorem C9_blank_author_raises :
  Samples.blank_author !! "Authors" = Some (SStr " ")
  /\ generate_bibtex Samples.blank_author 0
     = (Raise IndexError, Samples.blank_author)
  /\ normalize_pub Samples.blank_pub = Ok Samples.blank_author
  /\ outcome (on_search (Samples.env_of [Samples.deep_learning; Samples.blank_pub]
                          "20240101_000000")
                "Google Scholar" 5 "notes")
     = Raise IndexError.
Proof. repeat split; reflexivity. Qed.

(** [split] never returns the empty list. *)
Lemma split_from_not_nil (sep : string) (s : string) :
  forall (skip : nat) (cur : string), split_from sep skip cur s <> [].
Proof.
  induction s as [|c s IH]; intros skip cur; cbn [split_from]; [done|].
  destruct skip; [|apply IH].
  destruct (String.prefix sep (String c s)); [done | apply IH].
Qed.

(** ** The text does not depend on the run (C10) *)

(** What one result adds to the page: the only BibTeX button carries the
    text of [generate_bibtex], and neither the data nor the outcome depends
    on the environment or on the clock. *)
Lemma show_scholar_result_data (env : Env) (idx : Z) (result : result_dict)
  (t : nat) :
  exists (shown : bool),
    bibtex_data (fst (fst (show_scholar_result env idx result t)))
    = (if shown then option_list (from_res (bibtex_text result idx)) else [])
    /\ (forall env' t',
           bibtex_data (fst (fst (show_scholar_result env' idx result t')))
           = bibtex_data (fst (fst (show_scholar_result env idx result t)))
           /\ snd (show_scholar_result env' idx result t')
              = snd (show_scholar_result env idx result t)).
Proof.
  unfold show_scholar_result, bibtex_text.
  generalize (item result "Title" ≫= str) (item result "Cited By" ≫= str)
    (item result "Authors" ≫= str) (item result "Year" ≫= str).
  intros title cited authors year. unfold_ui_monad.
  destruct title; [|by exists false].
  destruct cited; [|by exists false].
  destruct authors; [|by exists false].
  destruct year; [|by exists false].
  destruct (item result "Abstract") as [abstract|]; [|by exists false].
  destruct (abstract_text abstract); [|by exists false].
  destruct (item result "URL") as [u|]; [|by exists false].
  destruct (truthy u); [destruct (str u); [|by exists false]|];
    (destruct (generate_bibtex result idx) as [[text|err] d];
     [|by exists true]);
    (destruct (str_of_int (idx + 1)); [by exists true | by exists false]).
Qed.

Lemma bibtex_data_app (evs evs' : list event) :
  bibtex_data (evs ++ evs') = (bibtex_data evs ++ bibtex_data evs')%list.
Proof. unfold bibtex_data. by rewrite omap_app, fmap_app. Qed.

(** The loop of lines 135-149 on a batch: the data of the BibTeX buttons
    and the outcome are the same under any two environments and clocks. *)
Lemma scholar_page_data (env env' : Env) (results : list result_dict) :
  forall (i : Z) (t t' : nat),
    bibtex_data (fst (fst (for_enumerate (show_scholar_result env') i results t')))
    = bibtex_data (fst (fst (for_enumerate (show_scholar_result env) i results t)))
    /\ snd (for_enumerate (show_scholar_result env') i results t')
       = snd (for_enumerate (show_scholar_result env) i results t).
Proof.
  induction results as [|result results IH]; intros i t t'; [done|].
  cbn [for_enumerate]. unfold mbind, UI_bind.
  destruct (show_scholar_result_data env i result t) as (_ & _ & Hhead).
  destruct (Hhead env' t') as [Hdata Hout]. clear Hhead.
  destruct (show_scholar_result env i result t) as [[evs t1] out].
  destruct (show_scholar_result env' i result t') as [[evs' t1'] out'].
  simpl in Hdata, Hout. subst out'.
  destruct out as [[]|err]; [|done].
  destruct (IH (i + 1) t1 t1') as [IHdata IHout].
  destruct (for_enumerate (show_scholar_result env) (i + 1) results t1)
    as [[evs2 t2] out2].
  destruct (for_enumerate (show_scholar_result env') (i + 1) results t1')
    as [[evs2' t2'] out2'].
  simpl in *. rewrite !bibtex_data_app. by rewrite Hdata, IHdata.
Qed.

(** The text, or the exception, is made of the Title, the Authors, the
    Year and the URL of the result and of the ordinal, and of nothing
    else. *)
Lemma bibtex_text_reads_four_fields (r1 r2 : result_dict) (index : Z) :
  r1 !! "Title" = r2 !! "Title" -> r1 !! "Authors" = r2 !! "Authors" ->
  r1 !! "Year" = r2 !! "Year" -> r1 !! "URL" = r2 !! "URL" ->
  bibtex_text r1 index = bibtex_text r2 index.
Proof.
  intros Ht Ha Hy Hu. rewrite !bibtex_text_render, !entry_of_spec.
  unfold fields_formattable, year_in, url_in. by rewrite Ht, Ha, Hy, Hu.
Qed.

(** C10: the text that [generate_bibtex] returns is made of the Title, the
    Authors, the Year and the URL of the result and of the ordinal, and of
    nothing else.  Two calls on results that agree on these four fields
    (equal results do) and on equal ordinals return the same text or raise
    the same exception; a returned text is the block of lines 45-50 around
    the first-author part, the year part, the numeral of the ordinal, the
    title without braces, the pieces of the authors joined with [" and "]
    and the url part, so no reading of the clock is in it.  On the page,
    the data of the BibTeX download buttons of a batch are the same
    whatever the environment and the clock readings, and each is the text
    [generate_bibtex] returns for its result; the file names of the buttons
    do change with the clock. *)
Theorem C10_bibtex_text_deterministic :
  (forall (r1 r2 : result_dict) (i1 i2 : Z),
      r1 !! "Title" = r2 !! "Title" -> r1 !! "Authors" = r2 !! "Authors" ->
      r1 !! "Year" = r2 !! "Year" -> r1 !! "URL" = r2 !! "URL" ->
      i1 = i2 ->
      fst (generate_bibtex r1 i1) = fst (generate_bibtex r2 i2))
  /\ (forall (result : result_dict) (index : Z) (text : string),
         fst (generate_bibtex result index) = Ok text ->
         exists title authors first_author,
           default (SStr "Untitled") (result !! "Title") = SStr title
           /\ default (SStr "Unknown Author") (result !! "Authors") = SStr authors
           /\ first_author_in result = Ok first_author
           /\ text
              = "@article{" +:+ first_author +:+ year_in result +:+ numeral index
                +:+ "," +:+ nl
                +:+ "    title = {" +:+ re_sub_braces title +:+ "}," +:+ nl
                +:+ "    author = {" +:+ join " and " (split authors ", ")
                +:+ "}," +:+ nl
                +:+ "    year = {" +:+ year_in result +:+ "}," +:+ nl
                +:+ "    url = {" +:+ url_in result +:+ "}" +:+ nl
                +:+ "}")
  /\ (forall (env1 env2 : Env) (t1 t2 : nat) (i : Z) (results : list result_dict),
         bibtex_data (fst (fst (for_enumerate (show_scholar_result env1) i results t1)))
         = bibtex_data (fst (fst (for_enumerate (show_scholar_result env2) i results t2))))
  /\ (forall (env : Env) (t : nat) (idx : Z) (result : result_dict) (data : string),
         data ∈ bibtex_data (fst (fst (show_scholar_result env idx result t))) ->
         bibtex_text result idx = Ok data)
  /\ bibtex_file_names
       (calls (show_scholar_result (Samples.env_of [] "20240101_000000") 0
                 Samples.goodfellow))
     <> bibtex_file_names
          (calls (show_scholar_result (Samples.env_of [] "20240101_000001") 0
                    Samples.goodfellow)).
Proof.
  split; [|split; [|split; [|split]]].
  - intros r1 r2 i1 i2 Ht Ha Hy Hu ->.
    by apply bibtex_text_reads_four_fields.
  - intros result index text Htext.
    change (bibtex_text result index = Ok text) in Htext.
    rewrite bibtex_text_render in Htext.
    destruct (entry_of result index) as [e|] eqn:He; [|done].
    injection Htext as <-.
    destruct (entry_of_key _ _ _ He) as (fa & Hfa & Hkey).
    apply entry_of_Ok in He as (title & al & fa' & Hs & Hal & _ & ->).
    simpl in Hkey.
    destruct (default (SStr "Untitled") (result !! "Title")) as [| |title'];
      try done. injection Hs as <-.
    destruct (default (SStr "Unknown Author") (result !! "Authors"))
      as [| |authors] eqn:Hauthors; try done. injection Hal as <-.
    exists title', authors, fa. split; [done|]. split; [done|].
    split; [done|]. unfold render. cbn [bibtex_key bibtex_title bibtex_author
      bibtex_year bibtex_url]. rewrite Hkey.
    assert (bibtex_author_of (split authors ", ")
            = join " and " (split authors ", ")) as ->.
    { unfold bibtex_author_of. destruct (split authors ", ") eqn:Hsp; [|done].
      unfold split in Hsp. by apply split_from_not_nil in Hsp. }
    by rewrite !app_assoc_text.
  - intros env1 env2 t1 t2 i results.
    apply (scholar_page_data env2 env1 results i t2 t1).
  - intros env t idx result data Hin.
    destruct (show_scholar_result_data env idx result t) as (shown & Hdata & _).
    rewrite Hdata in Hin. destruct shown; [|by apply elem_of_nil in Hin].
    destruct (bibtex_text result idx) as [text|err]; simpl in Hin.
    + apply list_elem_of_singleton in Hin. by subst.
    + by apply elem_of_nil in Hin.
  - vm_compute. discriminate.
Qed.

Lemma C10_bibtex_text_deterministic_witness :
  fst (generate_bibtex Samples.goodfellow 0)
  = fst (generate_bibtex (<["Abstract" := SStr "another abstract"]>
                            (<["Cited By" := SInt 7]> Samples.goodfellow)) 0)
  /\ bibtex_text Samples.goodfellow 0
     = Ok ("@article{Goodfellow20160," +:+ nl
           +:+ "    title = {Deep Learning}," +:+ nl
           +:+ "    author = {Ian Goodfellow and Yoshua Bengio}," +:+ nl
           +:+ "    year = {2016}," +:+ nl
           +:+ "    url = {N/A}" +:+ nl
           +:+ "}").
Proof.
  destruct C10_bibtex_text_deterministic as (Hfields & _ & _ & Hdata & _).
  split.
  - apply Hfields; reflexivity.
  - apply (Hdata (Samples.env_of [] "20240101_000000") 0%nat 0 Samples.goodfellow).
    vm_compute. apply list_elem_of_here.
Defined.

(** ** The loop over the Scholar records *)

Section Pairs.

Context {A : Type} (P : list A -> Prop).
Hypothesis P_nil : P [].
Hypothesis P_one : forall x, P [x].
Hypothesis P_two : forall x y l, P l -> P (x :: y :: l).

(** Induction that follows the loop: two items at a time. *)
Lemma pairs_ind (l : list A) : P l.
Proof using P_nil P_one P_two.
  assert (P l /\ forall x, P (x :: l)) as [H _]; [|done].
  induction l as [|y l [IH1 IH2]]; [by split|].
  split; [apply IH2|]. intros x. by apply P_two.
Qed.

End Pairs.

Lemma length_taken_by_next {A : Type} (l : list A) :
  length (taken_by_next l) = (length l / 2)%nat.
Proof.
  induction l as [|x|x y l IH] using pairs_ind; [done..|].
  cbn [taken_by_next length]. rewrite IH.
  change (S (S (length l))) with (1 * 2 + length l)%nat.
  rewrite Nat.add_comm, Nat.div_add by done. lia.
Qed.

Lemma taken_by_next_elem_of {A : Type} (l : list A) (x : A) :
  x ∈ taken_by_next l -> x ∈ l.
Proof.
  induction l as [|y|y z l IH] using pairs_ind;
    [simpl; by intros ?%elem_of_nil..|].
  cbn [taken_by_next]. rewrite !elem_of_cons. intros [->|H]; auto.
Qed.

Lemma take_elem_of {A : Type} (l : list A) (n : nat) (x : A) :
  x ∈ take n l -> x ∈ l.
Proof.
  intros (k & Hk & _)%elem_of_take. apply list_elem_of_lookup. by exists k.
Qed.

(** The only exception of the dictionary literal is the [TypeError] of
    [", ".join]. *)
Lemma normalize_pub_Raise (pub : Scholarly.Publication) (e : error) :
  normalize_pub pub = Raise e -> e = TypeError.
Proof.
  unfold normalize_pub, join_values, mbind, res_bind.
  generalize (default [] (Scholarly.author (default Scholarly.no_bib (Scholarly.bib pub)))).
  intros l. destruct (texts l) as [ss|e'] eqn:Ht; [done|]. intros [= <-].
  clear pub. revert e' Ht. induction l as [|[| |s] l IH]; intros e' Ht; simpl in Ht;
    try congruence.
  destruct (texts l); [done|]. injection Ht as <-. by apply IH.
Qed.

Lemma mapM_res_cons {A B : Type} (f : A -> res B) (x : A) (l : list A) :
  mapM f (x :: l)
  = match f x with
    | Ok y =>
        match mapM f l with
        | Ok k => Ok (y :: k)
        | Raise e => Raise e
        end
    | Raise e => Raise e
    end.
Proof. reflexivity. Qed.

Lemma mapM_res_length {A B : Type} (f : A -> res B) (l : list A) (k : list B) :
  mapM f l = Ok k -> length k = length l.
Proof.
  revert k. induction l as [|x l IH]; intros k.
  - by intros [= <-].
  - rewrite mapM_res_cons.
    destruct (f x); [|done]. destruct (mapM f l) as [k'|]; [|done].
    intros [= <-]. simpl. by rewrite (IH k').
Qed.

Lemma mapM_res_Ok {A B : Type} (f : A -> res B) (l : list A) (k : list B) :
  mapM f l = Ok k <-> Forall2 (fun x y => f x = Ok y) l k.
Proof.
  revert k. induction l as [|x l IH]; intros k.
  - split; [intros [= <-]; constructor | by intros ->%Forall2_nil_inv_l].
  - rewrite mapM_res_cons. split.
    + destruct (f x) as [y|] eqn:Hx; [|done].
      destruct (mapM f l) as [k'|]; [|done].
      intros [= <-]. constructor; [done | by apply IH].
    + intros (y & k' & Hx & Hl & ->)%Forall2_cons_inv_l.
      apply IH in Hl. by rewrite Hx, Hl.
Qed.

Lemma mapM_res_Raise {A B : Type} (f : A -> res B) (l : list A) (e : error) :
  mapM f l = Raise e -> exists x, x ∈ l /\ f x = Raise e.
Proof.
  induction l as [|x l IH]; [done|]. rewrite mapM_res_cons.
  destruct (f x) as [y|e'] eqn:Hx.
  - destruct (mapM f l) as [k'|e'']; [done|]. intros [= <-].
    destruct IH as (z & Hz & Hfz); [done|]. exists z. split; [by right | done].
  - intros [= <-]. exists x. split; [by left | done].
Qed.

Lemma mapM_res_all_ok {A B : Type} (f : A -> res B) (l : list A) :
  (forall x, x ∈ l -> is_ok (f x) = true) -> exists k, mapM f l = Ok k.
Proof.
  induction l as [|x l IH]; intros H; [by eexists|]. rewrite mapM_res_cons.
  pose proof (H x (list_elem_of_here _ _)) as Hx.
  destruct (f x) as [y|]; [|done].
  destruct IH as [k ->]; [intros z Hz; apply H; by right|]. by eexists.
Qed.

(** The loop normalizes, in order, the items that [next] obtains, up to
    [num_results - i] of them, and adds them to [results]; it raises what
    the first failing normalization raises. *)
Lemma scholar_loop_spec (num_results : Z)
  (search_query : list Scholarly.Publication) :
  forall (i : Z) (results : list result_dict),
    scholar_loop num_results i search_query results
    = (fun rs => (results ++ rs)%list)
        <$> mapM normalize_pub
              (take (Z.to_nat (num_results - i)) (taken_by_next search_query)).
Proof.
  induction search_query as [|x|x pub q IH] using pairs_ind; intros i results.
  - simpl. rewrite take_nil. simpl. by rewrite app_nil_r.
  - simpl. rewrite take_nil. simpl. rewrite app_nil_r. by destruct (_ <=? _).
  - cbn [scholar_loop taken_by_next].
    destruct (Z.leb_spec num_results i) as [Hle|Hlt].
    + replace (Z.to_nat (num_results - i)) with 0%nat by lia.
      simpl. by rewrite app_nil_r.
    + replace (Z.to_nat (num_results - i))
        with (S (Z.to_nat (num_results - (i + 1)))) by lia.
      cbn [take]. rewrite mapM_res_cons.
      destruct (normalize_pub pub) as [r|e] eqn:Hpub.
      * rewrite IH.
        destruct (mapM normalize_pub _) as [rs|e]; simpl; [|done].
        by rewrite <- app_assoc.
      * apply normalize_pub_Raise in Hpub as ->. done.
Qed.

Lemma scholar_results_spec (num_results : Z)
  (search_query : list Scholarly.Publication) :
  scholar_results num_results search_query
  = mapM normalize_pub (take (Z.to_nat num_results) (taken_by_next search_query)).
Proof.
  unfold scholar_results. rewrite scholar_loop_spec, Z.sub_0_r.
  by destruct (mapM normalize_pub _).
Qed.

(** The results of a query are the normalizations, in order, of the items
    that [next] obtained. *)
Lemma scholar_results_Ok (num_results : Z)
  (search_query : list Scholarly.Publication) (batch : list result_dict) :
  scholar_results num_results search_query = Ok batch <->
  Forall2 (fun pub r => normalize_pub pub = Ok r)
    (take (Z.to_nat num_results) (taken_by_next search_query)) batch.
Proof. rewrite scholar_results_spec. apply mapM_res_Ok. Qed.

(** A batch has at most [num_results] results. *)
Lemma scholar_results_length_le (num_results : Z)
  (search_query : list Scholarly.Publication) (batch : list result_dict) :
  scholar_results num_results search_query = Ok batch ->
  (length batch <= Z.to_nat num_results)%nat.
Proof.
  rewrite scholar_results_spec. intros ->%mapM_res_length.
  rewrite length_take. lia.
Qed.

(** The number of results of a query over [N] records: half of [N], rounded
    down, or [num_results] when that is less. *)
Lemma scholar_results_length (num_results : Z)
  (search_query : list Scholarly.Publication) (batch : list result_dict) :
  scholar_results num_results search_query = Ok batch ->
  length batch = Nat.min (Z.to_nat num_results) (length search_query / 2).
Proof.
  rewrite scholar_results_spec. intros ->%mapM_res_length.
  by rewrite length_take, length_taken_by_next.
Qed.

(** ** How many results a query returns (C1) *)

(** C1: the Scholar query does not return min(N, MaxResults) results.  The
    [for] statement and [next(search_query)] share one iterator, so every
    turn of the loop uses up two records and keeps the second.  On the two
    well-formed records [deep_learning; attention] with a limit of 2 it
    returns one result, the one of [attention], where the claim asks for
    two; on the single record [deep_learning] with a limit of 1 it returns
    none, where the claim asks for one. *)
Theorem C1_scholar_query_drops_records :
  normalize_pub Samples.deep_learning = Ok Samples.goodfellow
  /\ normalize_pub Samples.attention = Ok Samples.vaswani
  /\ scholar_results 2 [Samples.deep_learning; Samples.attention]
     = Ok [Samples.vaswani]
  /\ length [Samples.vaswani]
     <> Nat.min (length [Samples.deep_learning; Samples.attention]) (Z.to_nat 2)
  /\ scholar_results 1 [Samples.deep_learning] = Ok []
  /\ length (@nil result_dict)
     <> Nat.min (length [Samples.deep_learning]) (Z.to_nat 1).
Proof. repeat split; (reflexivity || discriminate). Qed.

(** ** A malformed record (C5) *)

(** C5, as stated, fails: the claim has the query skip a malformed record
    and return the results of the others.  With a limit of 3 and six
    records of which the fourth has a [None] in its author list, the query
    raises the [TypeError] of that record and returns nothing: the press of
    the button ends with the exception after the call to the provider, and
    no result is shown. *)
Lemma C5_malformed_record_aborts :
  normalize_pub Samples.malformed = Raise TypeError
  /\ scholar_results 3
       [Samples.deep_learning; Samples.attention; Samples.deep_learning;
        Samples.malformed; Samples.attention; Samples.attention]
     = Raise TypeError
  /\ ~ (exists results,
           scholar_results 3
             [Samples.deep_learning; Samples.attention; Samples.deep_learning;
              Samples.malformed; Samples.attention; Samples.attention]
           = Ok results)
  /\ on_search
       (Samples.env_of
          [Samples.deep_learning; Samples.attention; Samples.deep_learning;
           Samples.malformed; Samples.attention; Samples.attention]
          "20240101_000000")
       "Google Scholar" 3 "learning" 0%nat
     = ([StSpinner "Fetching results..."; CallSearchPubs "learning"], 0%nat,
        Raise TypeError).
Proof.
  assert (scholar_results 3
       [Samples.deep_learning; Samples.attention; Samples.deep_learning;
        Samples.malformed; Samples.attention; Samples.attention]
     = Raise TypeError) as H.
  { unfold scholar_results. cbn [scholar_loop].
    destruct (normalize_pub Samples.attention) eqn:H2; [|discriminate H2].
    reflexivity. }
  split; [reflexivity|]. split; [exact H|]. split; [|reflexivity].
  intros [results Hr]. rewrite H in Hr. discriminate Hr.
Qed.

(** C5, amended: the loop has no handler for a failing normalization.  When
    the record that [next] hands over fails to normalize, the loop raises
    that exception, whatever it has collected and whatever follows in the
    sequence; an exception of the query is always the exception of one of
    its records; and a query over well-formed records returns normally.  The
    [except] clause only ends the loop when the sequence is exhausted. *)
Theorem C5_failure_is_not_skipped :
  (forall (num_results i : Z) (for_item pub : Scholarly.Publication)
          (rest : list Scholarly.Publication) (results : list result_dict)
          (e : error),
      i < num_results ->
      normalize_pub pub = Raise e ->
      scholar_loop num_results i (for_item :: pub :: rest) results = Raise e)
  /\ (forall (num_results : Z) (search_query : list Scholarly.Publication)
             (e : error),
         scholar_results num_results search_query = Raise e ->
         exists pub, pub ∈ search_query /\ normalize_pub pub = Raise e)
  /\ (forall (num_results : Z) (search_query : list Scholarly.Publication),
         (forall pub, pub ∈ search_query -> is_ok (normalize_pub pub) = true) ->
         exists results, scholar_results num_results search_query = Ok results)
  /\ (forall (num_results i : Z) (for_item : Scholarly.Publication)
             (results : list result_dict),
         scholar_loop num_results i [for_item] results = Ok results).
Proof.
  split; [|split; [|split]].
  - intros num_results i for_item pub rest results e Hi Hpub.
    cbn [scholar_loop]. destruct (Z.leb_spec num_results i); [lia|].
    rewrite Hpub. by rewrite (normalize_pub_Raise _ _ Hpub).
  - intros num_results search_query e. rewrite scholar_results_spec.
    intros (pub & Hin & Hpub)%mapM_res_Raise. exists pub. split; [|done].
    by apply taken_by_next_elem_of, (take_elem_of _ (Z.to_nat num_results)).
  - intros num_results search_query Hok. rewrite scholar_results_spec.
    apply mapM_res_all_ok. intros pub Hin. apply Hok.
    by apply taken_by_next_elem_of, (take_elem_of _ (Z.to_nat num_results)).
  - intros num_results i for_item results. simpl. by destruct (_ <=? _).
Qed.

Lemma C5_failure_is_not_skipped_witness :
  scholar_loop 3 0 [Samples.deep_learning; Samples.malformed; Samples.attention] []
  = Raise TypeError.
Proof.
  apply (proj1 C5_failure_is_not_skipped); [lia | reflexivity].
Defined.

(** ** Keys within a batch (C6) *)

(** C6: in a batch that a query returns (the limit is at most 10, the
    range of the slider), the keys generated for two results at distinct
    ordinals differ, whatever the two results are; and for any two
    ordinals at all, the keys of two results with the same first-author
    part and the same year part differ as soon as the ordinals do. *)
Theorem C6_keys_differ_within_batch :
  (forall (num_results : Z) (search_query : list Scholarly.Publication)
          (batch : list result_dict) (i j : nat) (ri rj : result_dict)
          (ei ej : entry),
      num_results <= 10 ->
      scholar_results num_results search_query = Ok batch ->
      batch !! i = Some ri -> batch !! j = Some rj -> i <> j ->
      entry_of ri (Z.of_nat i) = Ok ei -> entry_of rj (Z.of_nat j) = Ok ej ->
      bibtex_key ei <> bibtex_key ej)
  /\ (forall (ri rj : result_dict) (i j : Z) (ei ej : entry),
         first_author_in ri = first_author_in rj ->
         year_in ri = year_in rj ->
         i <> j ->
         entry_of ri i = Ok ei -> entry_of rj j = Ok ej ->
         bibtex_key ei <> bibtex_key ej).
Proof.
  split.
  - intros num_results search_query batch i j ri rj ei ej Hn Hb Hi Hj Hij Hei Hej.
    apply scholar_results_length_le in Hb.
    apply lookup_lt_Some in Hi, Hj.
    destruct (entry_of_key _ _ _ Hei) as (fi & _ & ->).
    destruct (entry_of_key _ _ _ Hej) as (fj & _ & ->).
    rewrite <- !app_assoc_text. apply keys_differ_one_digit; lia.
  - intros ri rj i j ei ej Hfa Hy Hij Hei Hej.
    destruct (entry_of_key _ _ _ Hei) as (fi & Hfi & ->).
    destruct (entry_of_key _ _ _ Hej) as (fj & Hfj & ->).
    assert (fi = fj) as -> by congruence. rewrite Hy.
    rewrite <- !app_assoc_text. by apply keys_differ_same_parts.
Qed.

Lemma C6_keys_differ_within_batch_witness :
  bibtex_key (Entry "Vaswani20170" "Attention Is All You Need"
                "Ashish Vaswani and Noam Shazeer" "2017"
                "http://papers.example/attention")
  <> bibtex_key (Entry "Vaswani20171" "Attention Is All You Need"
                   "Ashish Vaswani and Noam Shazeer" "2017"
                   "http://papers.example/attention").
Proof.
  apply (proj1 C6_keys_differ_within_batch 2
           [Samples.deep_learning; Samples.attention;
            Samples.deep_learning; Samples.attention]
           [Samples.vaswani; Samples.vaswani] 0%nat 1%nat
           Samples.vaswani Samples.vaswani);
    [lia | reflexivity | reflexivity | reflexivity | lia
     | reflexivity | reflexivity].
Defined.

(** The bound on the batch matters for results that differ: with the
    ordinals 1 and 11, the years "11" and "1" give the same key. *)
Lemma keys_collide_beyond_ten :
  entry_of (Samples.result_of "P" "Ada Lovelace" (SStr "11") 0 "" "") 1
  = Ok (Entry "Lovelace111" "P" "Ada Lovelace" "11" "N/A")
  /\ entry_of (Samples.result_of "Q" "Ada Lovelace" (SStr "1") 0 "" "") 11
     = Ok (Entry "Lovelace111" "Q" "Ada Lovelace" "1" "N/A").
Proof. split; reflexivity. Qed.

(** ** Truncation on the page (C2) *)

(** An abstract of at most 200 characters is written as it is. *)
Lemma abstract_text_short (a : string) :
  (String.length a <= 200)%nat -> abstract_text (SStr a) = Ok a.
Proof.
  intros H. unfold abstract_text.
  destruct (Z.ltb_spec 200 (Z.of_nat (String.length a))); [lia | done].
Qed.

(** A longer one is cut to 200 characters, with the label in front and the
    ellipsis behind. *)
Lemma abstract_text_long (a : string) :
  (200 < String.length a)%nat ->
  abstract_text (SStr a) = Ok ("**Abstract:** " +:+ slice_to 200 a +:+ "...").
Proof.
  intros H. unfold abstract_text.
  destruct (Z.ltb_spec 200 (Z.of_nat (String.length a))); [done | lia].
Qed.

(** A snippet gets the ellipsis whatever its length; a body of at most 150
    characters is written whole, followed by the ellipsis. *)
Lemma snippet_text_short (body : string) :
  (String.length body <= 150)%nat ->
  snippet_text (SStr body) = Ok ("**Snippet:** " +:+ body +:+ "...").
Proof. intros H. unfold snippet_text. by rewrite length_slice_to. Qed.

(** C2: the web branch appends the ellipsis to a body that was not cut.
    For the record [Samples.web_short], whose body is the three characters
    [abc], line 165 writes [**Snippet:** abc...]; the Scholar branch, on the
    same text as an abstract, writes [abc]. *)
Theorem C2_short_snippet_gets_ellipsis :
  Samples.web_short !! "body" = Some (SStr "abc")
  /\ snippet_text (SStr "abc") = Ok "**Snippet:** abc..."
  /\ calls (show_web_result Samples.web_short)
     = [StExpander "**X**"; StWrite "**Snippet:** abc...";
        StMarkdown "[Visit Site](http://x)"]
  /\ abstract_text (SStr "abc") = Ok "abc".
Proof. repeat split; reflexivity. Qed.

(** ** Defaults of the normalization (C4) *)

(** C4, as stated, fails: the record of the example has an abstract and an
    e-print link that are present and empty, and its result has the
    Abstract and the URL empty, not N/A. *)
Lemma C4_empty_fields_stay_empty :
  normalize_pub Samples.deep_learning = Ok Samples.goodfellow
  /\ Samples.goodfellow !! "Abstract" = Some (SStr "")
  /\ Samples.goodfellow !! "URL" = Some (SStr "")
  /\ ~ (exists result,
           normalize_pub Samples.deep_learning = Ok result
           /\ result !! "Abstract" = Some (SStr "N/A")
           /\ result !! "URL" = Some (SStr "N/A")).
Proof.
  assert (normalize_pub Samples.deep_learning = Ok Samples.goodfellow) as H
    by reflexivity.
  split; [exact H|]. split; [reflexivity|]. split; [reflexivity|].
  intros (result & Hr & Ha & _). rewrite H in Hr. injection Hr as <-.
  discriminate Ha.
Qed.

(** C4, amended: the defaults stand in for missing keys, not for empty
    values.  The Abstract of the result is the abstract of the record when
    the record has one, even an empty one, and N/A when it has none; the URL
    is the e-print link when the record has that key, even with an empty
    value, else the publication-page link when the record has that key, else
    N/A.  The record of the example normalizes to the Abstract "" and the
    URL "". *)
Theorem C4_defaults_for_missing_keys :
  (forall (pub : Scholarly.Publication) (result : result_dict),
      normalize_pub pub = Ok result ->
      result !! "Abstract"
      = Some (match Scholarly.abstract
                      (default Scholarly.no_bib (Scholarly.bib pub)) with
              | Some a => a
              | None => SStr "N/A"
              end)
      /\ result !! "URL"
         = Some (match Scholarly.eprint_url pub, Scholarly.pub_url pub with
                 | Some eprint, _ => eprint
                 | None, Some page => page
                 | None, None => SStr "N/A"
                 end))
  /\ normalize_pub Samples.deep_learning
     = Ok (Samples.result_of "Deep Learning" "Ian Goodfellow, Yoshua Bengio"
             (SInt 2016) 50000 "" "").
Proof.
  split; [|reflexivity].
  intros pub result. unfold normalize_pub, mbind, res_bind, mret, res_ret.
  destruct (join_values _ _) as [authors|]; [|done]. intros [= <-].
  split.
  - rewrite !lookup_insert_ne by done. rewrite lookup_insert_eq.
    by destruct (Scholarly.abstract _).
  - rewrite !lookup_insert_ne by done. rewrite lookup_insert_eq.
    by destruct (Scholarly.eprint_url pub), (Scholarly.pub_url pub).
Qed.

Lemma C4_defaults_for_missing_keys_witness :
  Samples.vaswani !! "Abstract" = Some (SStr "The dominant sequence models")
  /\ Samples.vaswani !! "URL" = Some (SStr "http://papers.example/attention").
Proof.
  apply (proj1 C4_defaults_for_missing_keys Samples.attention Samples.vaswani).
  reflexivity.
Defined.

(** ** The empty query (C8) *)

(** C8: with an empty query the handler makes one call, the warning of line
    174; it calls no provider, shows no result, reads no clock and raises
    nothing, whatever the search type, the limit and the environment. *)
Theorem C8_empty_query_is_a_warning :
  forall (env : Env) (search_type : string) (num_results : Z) (t : nat),
    on_search env search_type num_results "" t
    = ([StWarning "Please enter a query to start your research!"], t, Ok tt)
    /\ filter is_provider_call (calls (on_search env search_type num_results ""))
       = []
    /\ outcome (on_search env search_type num_results "") = Ok tt.
Proof. intros env search_type num_results t. repeat split. Qed.

(** A query that is not empty does reach a provider: the spinner, then the
    call for the selected search type. *)
Lemma nonempty_query_calls_provider (env : Env) (search_type : string)
  (num_results : Z) (query : string) :
  query <> "" ->
  exists rest,
    calls (on_search env search_type num_results query)
    = StSpinner "Fetching results..."
      :: (if String.eqb search_type "Google Scholar"
          then CallSearchPubs query
          else CallDdgsText query num_results)
      :: rest.
Proof.
  intros Hq. unfold on_search, calls.
  destruct (String.eqb_spec query ""); [done|]. cbn [negb].
  destruct (String.eqb search_type "Google Scholar").
  - unfold scholar_branch. unfold_ui_monad.
    destruct (scholar_results _ _); [|by eexists].
    destruct (for_enumerate _ _ _ _) as [[evs t'] [[]|]]; [|by eexists].
    destruct (csv_button _ _ _ _) as [[evs' t''] out]. by eexists.
  - unfold web_branch. unfold_ui_monad.
    destruct (for_enumerate _ _ _ _) as [[evs t'] [[]|]]; [|by eexists].
    destruct (csv_button _ _ _ _) as [[evs' t''] out]. by eexists.
Qed.

(** * Further properties of the code *)

(** ** The Scholar query *)

Lemma taken_by_next_lookup {A : Type} (l : list A) :
  forall k : nat, taken_by_next l !! k = l !! (2 * k + 1)%nat.
Proof.
  induction l as [|x|x y l IH] using pairs_ind; intros k.
  - done.
  - simpl. by destruct k.
  - cbn [taken_by_next]. destruct k as [|k]; [done|].
    replace (2 * S k + 1)%nat with (S (S (2 * k + 1))) by lia.
    simpl. apply IH.
Qed.

(** X1: a query that returns has as many results as the smaller of the
    limit and half the number of records (rounded down), and its result
    number [k], counting from 0, is the normalization of the record number
    [2 * k + 1]: the records at the even places are never looked at. *)
Theorem X1_results_are_the_odd_records (num_results : Z)
  (search_query : list Scholarly.Publication) (batch : list result_dict) :
  scholar_results num_results search_query = Ok batch ->
  length batch = Nat.min (Z.to_nat num_results) (length search_query / 2)
  /\ forall (k : nat) (r : result_dict),
       batch !! k = Some r ->
       Z.of_nat k < num_results
       /\ exists pub,
            search_query !! (2 * k + 1)%nat = Some pub
            /\ normalize_pub pub = Ok r.
Proof.
  intros H. split; [by apply scholar_results_length|].
  intros k r Hk.
  pose proof (scholar_results_length_le _ _ _ H) as Hlen.
  pose proof (lookup_lt_Some _ _ _ Hk) as Hlt.
  split; [lia|].
  apply scholar_results_Ok in H.
  destruct (Forall2_lookup_r _ _ _ _ _ H Hk) as (pub & Hpub & Hnorm).
  exists pub. split; [|done].
  apply lookup_take_Some in Hpub as [Hpub _].
  by rewrite taken_by_next_lookup in Hpub.
Qed.

Lemma X1_results_are_the_odd_records_witness :
  length [Samples.vaswani; Samples.goodfellow]
  = Nat.min (Z.to_nat 5)
      (length [Samples.malformed; Samples.attention; Samples.malformed;
               Samples.deep_learning; Samples.attention] / 2)
  /\ forall (k : nat) (r : result_dict),
       [Samples.vaswani; Samples.goodfellow] !! k = Some r ->
       Z.of_nat k < 5
       /\ exists pub,
            [Samples.malformed; Samples.attention; Samples.malformed;
             Samples.deep_learning; Samples.attention] !! (2 * k + 1)%nat
            = Some pub
            /\ normalize_pub pub = Ok r.
Proof.
  apply (X1_results_are_the_odd_records 5
           [Samples.malformed; Samples.attention; Samples.malformed;
            Samples.deep_learning; Samples.attention]).
  reflexivity.
Defined.

Lemma short_query_no_results (num_results : Z)
  (search_query : list Scholarly.Publication) :
  num_results <= 0 \/ (length search_query <= 1)%nat ->
  scholar_results num_results search_query = Ok [].
Proof.
  intros [Hn | Hq]; rewrite scholar_results_spec.
  - by replace (Z.to_nat num_results) with 0%nat by lia.
  - destruct search_query as [|x [|y q]]; simpl in Hq; [| |lia];
      simpl; by rewrite take_nil.
Qed.

(** X2: a query with a limit of 0 or less, or over fewer than two records,
    returns the empty list, and does so even when the records are
    malformed: no record reaches the normalization. *)
Theorem X2_no_results_without_a_second_record (num_results : Z)
  (search_query : list Scholarly.Publication) :
  num_results <= 0 \/ (length search_query <= 1)%nat ->
  scholar_results num_results search_query = Ok [].
Proof. apply short_query_no_results. Qed.

Lemma X2_no_results_without_a_second_record_witness :
  scholar_results 0 [Samples.malformed; Samples.malformed] = Ok []
  /\ scholar_results 10 [Samples.malformed] = Ok [].
Proof.
  split.
  - apply X2_no_results_without_a_second_record. left. lia.
  - apply X2_no_results_without_a_second_record. right. simpl. lia.
Defined.

(** ** Failures of the normalization *)

(** [texts] returns the texts of a list of texts, and raises [TypeError]
    on a list with an item that is not a text. *)
Lemma texts_spec (l : list scalar) :
  match texts l with
  | Ok ss => l = SStr <$> ss
  | Raise e => e = TypeError /\ exists v, v ∈ l /\ is_text v = false
  end.
Proof.
  induction l as [|v l IH]; simpl; [done|].
  destruct v as [|n|s].
  - split; [done|]. exists SNone. split; [left | done].
  - split; [done|]. exists (SInt n). split; [left | done].
  - destruct (texts l) as [ss|e].
    + simpl. by rewrite IH.
    + destruct IH as (-> & v & Hv & Ht). split; [done|].
      exists v. split; [by right | done].
Qed.

(** X3: the normalization of a publication raises exactly when its author
    list has an item that is not a text, and then it raises [TypeError];
    the title, the year, the abstract, the citation count and the links may
    be missing or of any kind without making it fail. *)
Theorem X3_normalization_fails_on_authors_only
  (pub : Scholarly.Publication) (e : error) :
  normalize_pub pub = Raise e <->
  e = TypeError /\ exists v, v ∈ authors_of pub /\ is_text v = false.
Proof.
  unfold normalize_pub, join_values, authors_of, mbind, res_bind, mret, res_ret.
  pose proof (texts_spec
    (default [] (Scholarly.author (default Scholarly.no_bib (Scholarly.bib pub)))))
    as H.
  destruct (texts _) as [ss|e'].
  - split; [done|]. intros (_ & v & Hv & Ht). rewrite H in Hv.
    apply list_elem_of_fmap in Hv as (s & -> & _). done.
  - destruct H as (-> & H). split; [by intros [= <-] | by intros [-> _]].
Qed.

Lemma mapM_res_not_ok {A B : Type} (f : A -> res B) (l : list A) :
  (exists x, x ∈ l /\ is_ok (f x) = false) -> exists e, mapM f l = Raise e.
Proof.
  induction l as [|y l IH]; intros (x & Hx & Hf).
  - by apply elem_of_nil in Hx.
  - rewrite mapM_res_cons. destruct (f y) as [b|e] eqn:Hy; [|by eexists].
    apply elem_of_cons in Hx as [-> | Hx]; [by rewrite Hy in Hf|].
    destruct IH as [e ->]; [by exists x|]. by eexists.
Qed.

(** X4: a query raises exactly when one of the records it normalizes, the
    records at the places [2 * k + 1] with [k] below the limit, fails to
    normalize; the exception is then [TypeError].  It never raises
    [StopIteration]: the exhaustion of the sequence ends the loop. *)
Theorem X4_query_raises_on_a_malformed_odd_record (num_results : Z)
  (search_query : list Scholarly.Publication) (e : error) :
  scholar_results num_results search_query = Raise e <->
  e = TypeError
  /\ exists (k : nat) (pub : Scholarly.Publication),
       Z.of_nat k < num_results
       /\ search_query !! (2 * k + 1)%nat = Some pub
       /\ is_ok (normalize_pub pub) = false.
Proof.
  rewrite scholar_results_spec. split.
  - intros (pub & Hin & Hpub)%mapM_res_Raise.
    split; [by apply normalize_pub_Raise in Hpub|].
    apply list_elem_of_lookup in Hin as [k Hk].
    apply lookup_take_Some in Hk as [Hk Hlt].
    rewrite taken_by_next_lookup in Hk.
    exists k, pub. split; [lia|]. split; [done|]. by rewrite Hpub.
  - intros (-> & k & pub & Hlt & Hk & Hpub).
    destruct (mapM_res_not_ok normalize_pub
                (take (Z.to_nat num_results) (taken_by_next search_query)))
      as [e He].
    + exists pub. split; [|done]. apply list_elem_of_lookup. exists k.
      apply lookup_take_Some. rewrite taken_by_next_lookup. split; [done | lia].
    + rewrite He. f_equal.
      apply mapM_res_Raise in He as (pub' & _ & Hpub').
      by apply normalize_pub_Raise in Hpub'.
Qed.

Lemma X3_normalization_fails_on_authors_only_witness :
  normalize_pub Samples.malformed = Raise TypeError.
Proof.
  apply X3_normalization_fails_on_authors_only. split; [reflexivity|].
  exists SNone. split; [apply list_elem_of_here | reflexivity].
Defined.

Lemma X4_query_raises_on_a_malformed_odd_record_witness :
  scholar_results 2
    [Samples.deep_learning; Samples.attention; Samples.attention; Samples.malformed]
  = Raise TypeError.
Proof.
  apply X4_query_raises_on_a_malformed_odd_record. split; [reflexivity|].
  exists 1%nat, Samples.malformed. split; [lia|]. split; reflexivity.
Defined.

(** ** The shape of a normalized result *)

(** X5: a result of the normalization has exactly the six keys Title,
    Authors, Year, Cited By, Abstract and URL, and its Authors is a text:
    the names of the author list joined with [", "]. *)
Theorem X5_normalized_result_shape (pub : Scholarly.Publication)
  (result : result_dict) :
  normalize_pub pub = Ok result ->
  dom result
  = list_to_set ["Title"; "Authors"; "Year"; "Cited By"; "Abstract"; "URL"]
  /\ exists names : list string,
       authors_of pub = SStr <$> names
       /\ result !! "Authors" = Some (SStr (join ", " names)).
Proof.
  unfold normalize_pub, join_values, authors_of, mbind, res_bind, mret, res_ret.
  pose proof (texts_spec
    (default [] (Scholarly.author (default Scholarly.no_bib (Scholarly.bib pub)))))
    as H.
  destruct (texts _) as [names|]; [|done]. intros [= <-]. split.
  - rewrite !dom_insert_L, dom_empty_L. set_solver.
  - exists names. split; [done|].
    rewrite lookup_insert_ne by done. by rewrite lookup_insert_eq.
Qed.

Lemma X5_normalized_result_shape_witness :
  dom Samples.vaswani
  = list_to_set ["Title"; "Authors"; "Year"; "Cited By"; "Abstract"; "URL"]
  /\ exists names : list string,
       authors_of Samples.attention = SStr <$> names
       /\ Samples.vaswani !! "Authors" = Some (SStr (join ", " names)).
Proof.
  apply (X5_normalized_result_shape Samples.attention Samples.vaswani).
  reflexivity.
Defined.

(** ** Failures of [generate_bibtex] *)

Lemma first_author_of_not_blank (l rest : list string) (first fa : string) :
  first_author_of l = Ok fa -> l = first :: rest ->
  first <> "" -> all_space first = true -> False.
Proof.
  intros Hfa -> Hne Hsp.
  assert (first_author_of (first :: rest) = Raise IndexError) as Habs.
  { apply first_author_of_Raise. split; [done|]. by exists first, rest. }
  congruence.
Qed.

(** The four ways in which [generate_bibtex] raises. *)
Lemma bibtex_text_Raise (result : result_dict) (index : Z) (e : error) :
  bibtex_text result index = Raise e <->
  (e = TypeError
   /\ is_text (default (SStr "Untitled") (result !! "Title")) = false)
  \/ (e = AttributeError
      /\ is_text (default (SStr "Untitled") (result !! "Title")) = true
      /\ is_text (default (SStr "Unknown Author") (result !! "Authors")) = false)
  \/ (e = IndexError
      /\ is_text (default (SStr "Untitled") (result !! "Title")) = true
      /\ exists authors first rest,
           default (SStr "Unknown Author") (result !! "Authors") = SStr authors
           /\ split authors ", " = first :: rest
           /\ first <> "" /\ all_space first = true)
  \/ (e = ValueError
      /\ is_text (default (SStr "Untitled") (result !! "Title")) = true
      /\ (exists authors first_author,
             default (SStr "Unknown Author") (result !! "Authors") = SStr authors
             /\ first_author_of (split authors ", ") = Ok first_author)
      /\ fields_formattable result index = false).
Proof.
  rewrite bibtex_text_render, entry_of_spec.
  destruct (default (SStr "Untitled") (result !! "Title")) as [|n|title]; simpl.
  1,2: split; [intros [= <-]; by left
               | intros [[-> _] | [(_ & ? & _) | [(_ & ? & _) | (_ & ? & _)]]];
                 done].
  destruct (default (SStr "Unknown Author") (result !! "Authors"))
    as [|n|authors]; simpl.
  1,2: split; [intros [= <-]; right; by left
               | intros [[_ ?] | [(-> & _) | [(_ & _ & ? & ? & ? & ? & _)
                                             | (_ & _ & (? & ? & ? & _) & _)]]];
                 done].
  destruct (first_author_of (split authors ", ")) as [fa|err] eqn:Hfa; simpl.
  - destruct (fields_formattable result index) eqn:Hfmt; simpl.
    + split; [done|].
      intros [[_ ?] | [(_ & _ & ?) | [H | (_ & _ & _ & ?)]]]; [done|done| |done].
      destruct H as (_ & _ & a & first & rest & [= <-] & Hs & Hne & Hsp).
      by destruct (first_author_of_not_blank _ rest first fa Hfa Hs).
    + split.
      * intros [= <-]. do 3 right. split; [done|]. split; [done|].
        split; [by exists authors, fa | done].
      * intros [[_ ?] | [(_ & _ & ?) | [H | (-> & _)]]]; [done|done| |done].
        destruct H as (_ & _ & a & first & rest & [= <-] & Hs & Hne & Hsp).
        by destruct (first_author_of_not_blank _ rest first fa Hfa Hs).
  - apply first_author_of_Raise in Hfa as (-> & first & rest & Hs & Hne & Hsp).
    split.
    + intros [= <-]. right; right; left. split; [done|]. split; [done|].
      by exists authors, first, rest.
    + intros [[_ ?] | [(_ & _ & ?) | [(-> & _) | H]]]; [done|done|done|].
      destruct H as (_ & _ & (a & fa & [= <-] & Hfa) & _).
      by destruct (first_author_of_not_blank _ rest first fa Hfa Hs).
Qed.

(** X6: [generate_bibtex] raises in four cases only: [TypeError] when the
    Title is not a text, [AttributeError] when the Title is a text and the
    Authors is not, [IndexError] when both are texts and the piece of the
    Authors before the first [", "] is not empty and holds whitespace
    only, and [ValueError] when none of these holds and a field cannot be
    formatted: the Year, the ordinal or a truthy URL is an integer of more
    than 4300 digits.  A missing Title or Authors counts as its default
    text. *)
Theorem X6_generate_bibtex_errors (result : result_dict) (index : Z)
  (e : error) :
  fst (generate_bibtex result index) = Raise e <->
  (e = TypeError
   /\ is_text (default (SStr "Untitled") (result !! "Title")) = false)
  \/ (e = AttributeError
      /\ is_text (default (SStr "Untitled") (result !! "Title")) = true
      /\ is_text (default (SStr "Unknown Author") (result !! "Authors")) = false)
  \/ (e = IndexError
      /\ is_text (default (SStr "Untitled") (result !! "Title")) = true
      /\ exists authors first rest,
           default (SStr "Unknown Author") (result !! "Authors") = SStr authors
           /\ split authors ", " = first :: rest
           /\ first <> "" /\ all_space first = true)
  \/ (e = ValueError
      /\ is_text (default (SStr "Untitled") (result !! "Title")) = true
      /\ (exists authors first_author,
             default (SStr "Unknown Author") (result !! "Authors") = SStr authors
             /\ first_author_of (split authors ", ") = Ok first_author)
      /\ (year_formattable (default (SStr "N/A") (result !! "Year")) = false
          \/ too_long index = true
          \/ url_formattable (default (SStr "") (result !! "URL")) = false)).
Proof.
  rewrite (bibtex_text_Raise result index e). unfold fields_formattable.
  destruct (year_formattable _), (too_long index), (url_formattable _);
    simpl; intuition congruence.
Qed.

Lemma X6_generate_bibtex_errors_witness :
  fst (generate_bibtex (<["Title" := SInt 7]> Samples.turing) 3) = Raise TypeError
  /\ fst (generate_bibtex (<["Authors" := SNone]> Samples.turing) 3)
     = Raise AttributeError
  /\ fst (generate_bibtex (<["Year" := SInt (10 ^ 4300)]> Samples.turing) 3)
     = Raise ValueError.
Proof.
  split; [|split].
  - apply X6_generate_bibtex_errors. left. split; reflexivity.
  - apply X6_generate_bibtex_errors. right; left. repeat split; reflexivity.
  - apply X6_generate_bibtex_errors. do 3 right.
    split; [reflexivity|]. split; [reflexivity|].
    split; [by exists "Alan Turing", "Turing"|]. left.
    rewrite lookup_insert_eq.
    change (negb (too_long (10 ^ 4300)) = false).
    by rewrite too_long_4301_digits.
Defined.

(** X7: when the Title and the Authors of a result are texts (or missing),
    the piece of the Authors before the first [", "] is empty or has a
    character that is not whitespace, and the Year, the ordinal and the URL
    can be formatted (none is an integer of more than 4300 digits that
    line 42 or 49 formats), [generate_bibtex] returns a text; and in every
    case, returning or raising, it leaves the dictionary as it was. *)
Theorem X7_generate_bibtex_returns_and_keeps (result : result_dict)
  (index : Z) (title authors : string) :
  default (SStr "Untitled") (result !! "Title") = SStr title ->
  default (SStr "Unknown Author") (result !! "Authors") = SStr authors ->
  (forall first rest,
      split authors ", " = first :: rest -> first = "" \/ all_space first = false) ->
  fields_formattable result index = true ->
  (exists text, generate_bibtex result index = (Ok text, result))
  /\ forall (other : result_dict) (i : Z), snd (generate_bibtex other i) = other.
Proof.
  intros Ht Ha Hfirst Hfmt. split; [|apply generate_bibtex_frame].
  destruct (bibtex_text result index) as [text|e] eqn:Htext.
  - exists text. apply injective_projections; [done | apply generate_bibtex_frame].
  - apply bibtex_text_Raise in Htext
      as [[_ H] | [(_ & _ & H)
                  | [(_ & _ & a & first & rest & Ha' & Hs & Hne & Hsp)
                    | (_ & _ & _ & H)]]].
    + by rewrite Ht in H.
    + by rewrite Ha in H.
    + rewrite Ha in Ha'. injection Ha' as <-.
      destruct (Hfirst first rest Hs) as [-> | Hns]; [done | congruence].
    + congruence.
Qed.

Lemma X7_generate_bibtex_returns_and_keeps_witness :
  (exists text, generate_bibtex ∅ 4 = (Ok text, ∅))
  /\ forall (other : result_dict) (i : Z), snd (generate_bibtex other i) = other.
Proof.
  apply (X7_generate_bibtex_returns_and_keeps ∅ 4 "Untitled" "Unknown Author");
    [reflexivity | reflexivity | | reflexivity].
  intros first rest [= <- _]. right. reflexivity.
Defined.

(** ** Fields of the entry *)

(** A numeral reads back as its number. *)
Lemma numeral_reads_back (n : Z) (t : string) :
  numeral n = t -> NilZero.int_of_string t = Some (Z.to_int n).
Proof.
  intros <-. unfold numeral.
  destruct (to_int_not_nil n) as [H1 H2]. by apply NilZero.isi.
Qed.

(** X8: the author field of an entry is the pieces of the Authors text
    between the occurrences of [", "], joined with [" and "]; the fallback
    of line 38 is never taken, so an empty Authors gives an empty author
    field and the key part [unknown], while a missing Authors gives the
    author field [Unknown Author] and the key part [Author]. *)
Theorem X8_author_field_and_fallbacks (result : result_dict) (index : Z)
  (e : entry) :
  entry_of result index = Ok e ->
  (exists authors,
      default (SStr "Unknown Author") (result !! "Authors") = SStr authors
      /\ bibtex_author e = join " and " (split authors ", "))
  /\ (result !! "Authors" = Some (SStr "") ->
      bibtex_author e = ""
      /\ bibtex_key e = "unknown" +:+ year_in result +:+ numeral index)
  /\ (result !! "Authors" = None ->
      bibtex_author e = "Unknown Author"
      /\ bibtex_key e = "Author" +:+ year_in result +:+ numeral index).
Proof.
  intros (title & al & fa & _ & Hal & Hfa & ->)%entry_of_Ok. simpl.
  split; [|split].
  - destruct (default _ (result !! "Authors")) as [| |authors]; try done.
    injection Hal as <-. exists authors. split; [done|].
    unfold bibtex_author_of.
    pose proof (split_from_not_nil ", " authors 0 "") as Hne.
    fold (split authors ", ") in Hne. by destruct (split authors ", ").
  - intros Ha. rewrite Ha in Hal. injection Hal as <-.
    by injection Hfa as <-.
  - intros Ha. rewrite Ha in Hal. injection Hal as <-.
    by injection Hfa as <-.
Qed.

Lemma X8_author_field_and_fallbacks_witness :
  bibtex_author (Entry "Authorunknown2" "Untitled" "Unknown Author" "unknown" "N/A")
  = "Unknown Author"
  /\ bibtex_key (Entry "Authorunknown2" "Untitled" "Unknown Author" "unknown" "N/A")
     = "Author" +:+ year_in ∅ +:+ numeral 2.
Proof.
  apply (X8_author_field_and_fallbacks ∅ 2
           (Entry "Authorunknown2" "Untitled" "Unknown Author" "unknown" "N/A"));
    reflexivity.
Defined.

(** X9: whatever the result, the year field of an entry is never the text
    N/A and the url field is never empty. *)
Theorem X9_year_never_NA_url_never_empty (result : result_dict) (index : Z)
  (e : entry) :
  entry_of result index = Ok e ->
  bibtex_year e <> "N/A" /\ bibtex_url e <> "".
Proof.
  intros (title & al & fa & _ & _ & _ & ->)%entry_of_Ok. simpl. split.
  - unfold year_in, year_text.
    destruct (default (SStr "N/A") (result !! "Year")) as [|n|s]; simpl.
    + done.
    + intros H%numeral_reads_back. vm_compute in H. done.
    + destruct (String.eqb_spec s "N/A"); simpl; done.
  - unfold url_in, url_text.
    destruct (default (SStr "") (result !! "URL")) as [|n|s]; simpl.
    + done.
    + destruct (n =? 0); simpl; [done|].
      intros H%numeral_reads_back. vm_compute in H. done.
    + destruct (String.eqb_spec s ""); simpl; done.
Qed.

Lemma X9_year_never_NA_url_never_empty_witness :
  bibtex_year (Entry "Turingunknown0" "On Computable Numbers" "Alan Turing"
                 "unknown" "http://papers.example/turing") <> "N/A"
  /\ bibtex_url (Entry "Turingunknown0" "On Computable Numbers" "Alan Turing"
                   "unknown" "http://papers.example/turing") <> "".
Proof.
  apply (X9_year_never_NA_url_never_empty Samples.turing 0). reflexivity.
Defined.

(** ** Splitting the author text *)

Lemma text_app_empty (s : string) : s +:+ "" = s.
Proof. induction s as [|c s IH]; [done | by rewrite app_cons, IH]. Qed.

Lemma prefix_cons (a b : ascii) (s1 s2 : string) :
  String.prefix (String a s1) (String b s2)
  = if ascii_dec a b then String.prefix s1 s2 else false.
Proof. reflexivity. Qed.

Lemma prefix_comma_space (c : ascii) (s : string) :
  String.prefix ", " (String c s) = true <->
  c = ","%char /\ exists s', s = String " " s'.
Proof.
  rewrite prefix_cons. destruct (ascii_dec "," c) as [<-|Hc].
  - destruct s as [|d s]; [split; [done | intros [_ [? ?]]; done]|].
    rewrite prefix_cons. destruct (ascii_dec " " d) as [<-|Hd].
    + split; [|by destruct s]. intros _. split; [done | by eexists].
    + split; [done|]. intros [_ [s' [= -> _]]]. done.
  - split; [done | intros [-> _]; done].
Qed.

Lemma has_comma_space_cons (c : ascii) (s : string) :
  has_comma_space (String c s) = false ->
  String.prefix ", " (String c s) = false /\ has_comma_space s = false.
Proof. cbn [has_comma_space]. by intros [? ?]%orb_false_elim. Qed.

(** A piece without [", "] that is followed by [", "] is cut off there. *)
Lemma split_from_piece (name rest : string) :
  has_comma_space name = false ->
  forall cur,
    split_from ", " 0 cur (name +:+ ", " +:+ rest)
    = (cur +:+ name) :: split_from ", " 0 "" rest.
Proof.
  induction name as [|c name IH]; intros Hname cur.
  - rewrite text_app_empty.
    change ("" +:+ ", " +:+ rest) with (String "," (String " " rest)).
    cbn [split_from].
    assert (String.prefix ", " (String "," (String " " rest)) = true) as ->;
      [|done].
    apply prefix_comma_space. split; [done | by eexists].
  - apply has_comma_space_cons in Hname as [Hp Hname].
    rewrite app_cons. cbn [split_from].
    assert (String.prefix ", " (String c (name +:+ ", " +:+ rest)) = false) as ->.
    { apply not_true_is_false. intros [-> [s' Hs]]%prefix_comma_space.
      apply not_true_iff_false in Hp. apply Hp, prefix_comma_space.
      split; [done|]. destruct name as [|d name]; [discriminate Hs|].
      rewrite app_cons in Hs. injection Hs as -> _. by eexists. }
    rewrite IH by done. by rewrite app_assoc_text.
Qed.

(** A piece without [", "] at the end of the text is the last piece. *)
Lemma split_from_last_piece (name : string) :
  has_comma_space name = false ->
  forall cur, split_from ", " 0 cur name = [cur +:+ name].
Proof.
  induction name as [|c name IH]; intros Hname cur.
  - by rewrite text_app_empty.
  - apply has_comma_space_cons in Hname as [Hp Hname].
    cbn [split_from]. rewrite Hp, IH by done. by rewrite app_assoc_text.
Qed.

(** Joining names with [", "] and splitting at [", "] gives the names back,
    when no name holds [", "]. *)
Lemma split_join (names : list string) :
  names <> [] ->
  Forall (fun name => has_comma_space name = false) names ->
  split (join ", " names) ", " = names.
Proof.
  unfold split, join. induction names as [|name [|name' names] IH]; intros Hne Hall.
  - done.
  - apply Forall_cons in Hall as [Hname _]. simpl.
    by rewrite split_from_last_piece.
  - apply Forall_cons in Hall as [Hname Hall].
    change (String.concat ", " (name :: name' :: names))
      with (name +:+ ", " +:+ String.concat ", " (name' :: names)).
    rewrite split_from_piece by done. by rewrite IH.
Qed.

Lemma texts_fmap (names : list string) : texts (SStr <$> names) = Ok names.
Proof.
  induction names as [|n names IH]; [done|].
  rewrite fmap_cons. cbn [texts]. by rewrite IH.
Qed.

(** X10: from the publication to the entry, the author names survive the
    join of line 124 and the split of line 37.  When the items of the
    author list are texts of which none holds [", "], the author field of
    the entry of the normalized result is the names joined with [" and "].
    In particular [split] undoes the join with [", "] on such names. *)
Theorem X10_author_names_round_trip (pub : Scholarly.Publication)
  (names : list string) (result : result_dict) (index : Z) (e : entry) :
  authors_of pub = SStr <$> names ->
  Forall (fun name => has_comma_space name = false) names ->
  normalize_pub pub = Ok result ->
  entry_of result index = Ok e ->
  bibtex_author e = join " and " names
  /\ (names <> [] -> split (join ", " names) ", " = names).
Proof.
  intros Hauthors Hnames Hnorm He. split; [|intros Hne; by apply split_join].
  assert (result !! "Authors" = Some (SStr (join ", " names))) as Hres.
  { revert Hnorm. unfold normalize_pub, join_values, mbind, res_bind, mret, res_ret.
    fold (authors_of pub). rewrite Hauthors, texts_fmap. intros [= <-].
    rewrite lookup_insert_ne by done. by rewrite lookup_insert_eq. }
  apply entry_of_Ok in He as (title & al & fa & _ & Hal & _ & ->). simpl.
  rewrite Hres in Hal. injection Hal as <-.
  destruct names as [|name names]; [done|].
  by rewrite split_join.
Qed.

Lemma X10_author_names_round_trip_witness :
  bibtex_author (Entry "Vaswani20170" "Attention Is All You Need"
                   "Ashish Vaswani and Noam Shazeer" "2017"
                   "http://papers.example/attention")
  = join " and " ["Ashish Vaswani"; "Noam Shazeer"]
  /\ (["Ashish Vaswani"; "Noam Shazeer"] <> [] ->
      split (join ", " ["Ashish Vaswani"; "Noam Shazeer"]) ", "
      = ["Ashish Vaswani"; "Noam Shazeer"]).
Proof.
  apply (X10_author_names_round_trip Samples.attention
           ["Ashish Vaswani"; "Noam Shazeer"] Samples.vaswani 0);
    [reflexivity | by repeat constructor | reflexivity | reflexivity].
Defined.

(** ** The first-author part of the key *)

Lemma split_ws_from_word (w : string) :
  no_space w = true ->
  forall cur, cur +:+ w <> "" -> split_ws_from cur w = [cur +:+ w].
Proof.
  induction w as [|c w IH]; intros Hw cur Hne; cbn [split_ws_from].
  - rewrite text_app_empty in *. by destruct (String.eqb_spec cur "").
  - cbn [no_space] in Hw. apply andb_true_iff in Hw as [Hc Hw].
    apply negb_true_iff in Hc. rewrite Hc.
    rewrite IH; [by rewrite app_assoc_text | done | by rewrite app_assoc_text].
Qed.

Lemma split_ws_from_space (a rest : string) (c : ascii) :
  isspace c = true ->
  forall cur,
    split_ws_from cur (a +:+ String c rest)
    = (split_ws_from cur a ++ split_ws_from "" rest)%list.
Proof.
  intros Hc. induction a as [|d a IH]; intros cur.
  - change ("" +:+ String c rest) with (String c rest).
    cbn [split_ws_from]. rewrite Hc. by destruct (String.eqb cur "").
  - rewrite app_cons. cbn [split_ws_from].
    destruct (isspace d); [|apply IH].
    destruct (String.eqb cur ""); by rewrite IH.
Qed.

Lemma last_item_snoc (l : list string) (w : string) :
  last_item (l ++ [w]) = Ok w.
Proof.
  unfold last_item. rewrite fmap_app. simpl. by rewrite last_last.
Qed.

(** X11: the first-author part of the key is the last word of the first
    author.  When the piece of the Authors before the first [", "] is a
    word [w] without whitespace, or ends with a whitespace character
    followed by such a word, the key of the entry is [w], then the year
    part, then the ordinal. *)
Theorem X11_key_starts_with_last_word (result : result_dict) (index : Z)
  (e : entry) (authors first w : string) (rest : list string) :
  entry_of result index = Ok e ->
  default (SStr "Unknown Author") (result !! "Authors") = SStr authors ->
  split authors ", " = first :: rest ->
  no_space w = true -> w <> "" ->
  (first = w
   \/ exists (before : string) (c : ascii),
        isspace c = true /\ first = before +:+ String c w) ->
  bibtex_key e = w +:+ year_in result +:+ numeral index.
Proof.
  intros He Ha Hsplit Hw Hne Hfirst.
  apply entry_of_key in He as (fa & Hfa & ->). f_equal.
  unfold first_author_in in Hfa. rewrite Ha in Hfa. simpl in Hfa.
  unfold mbind, res_bind in Hfa. rewrite Hsplit in Hfa. simpl in Hfa.
  assert (last_item (split_ws first) = Ok w) as Hlast.
  { unfold split_ws. destruct Hfirst as [-> | (before & c & Hc & ->)].
    - by rewrite split_ws_from_word.
    - rewrite split_ws_from_space by done.
      rewrite (split_ws_from_word w Hw "") by done. apply last_item_snoc. }
  destruct (String.eqb_spec first "") as [->|_]; [|congruence].
  destruct Hfirst as [<- | (before & c & _ & Hb)]; [done|].
  destruct before; discriminate Hb.
Qed.

Lemma X11_key_starts_with_last_word_witness :
  bibtex_key (Entry "Goodfellow20160" "Deep Learning"
                "Ian Goodfellow and Yoshua Bengio" "2016" "N/A")
  = "Goodfellow" +:+ year_in Samples.goodfellow +:+ numeral 0.
Proof.
  apply (X11_key_starts_with_last_word Samples.goodfellow 0 _
           "Ian Goodfellow, Yoshua Bengio" "Ian Goodfellow" "Goodfellow"
           ["Yoshua Bengio"]);
    [reflexivity | reflexivity | reflexivity | reflexivity | discriminate |].
  right. exists "Ian", " "%char. split; reflexivity.
Defined.

(** ** What the page writes *)

Lemma text_length_app (s t : string) :
  String.length (s +:+ t) = (String.length s + String.length t)%nat.
Proof.
  induction s as [|c s IH]; [done | rewrite app_cons; simpl; by rewrite IH].
Qed.

Lemma slice_to_length (n : nat) (s : string) :
  String.length (slice_to n s) = Nat.min n (String.length s).
Proof.
  revert n. induction s as [|c s IH]; intros [|n]; simpl; try done.
  by rewrite IH.
Qed.

(** X12: the line written for an abstract is the abstract itself, without
    the label, when it has at most 200 characters, and otherwise the label,
    the first 200 characters and the ellipsis, 217 characters in all; the
    line written for a snippet has 16 characters more than the shorter of
    the body and its first 150 characters.  No line of either kind is
    longer than 217 characters. *)
Theorem X12_lengths_of_the_written_lines :
  (forall a t : string,
      abstract_text (SStr a) = Ok t ->
      (String.length t <= 217)%nat
      /\ ((String.length a <= 200)%nat -> t = a)
      /\ ((200 < String.length a)%nat ->
          t = "**Abstract:** " +:+ slice_to 200 a +:+ "..."
          /\ String.length t = 217%nat))
  /\ (forall body t : string,
         snippet_text (SStr body) = Ok t ->
         String.length t = (16 + Nat.min 150 (String.length body))%nat).
Proof.
  split.
  - intros a t. unfold abstract_text.
    destruct (Z.ltb_spec 200 (Z.of_nat (String.length a))) as [Hlong|Hshort];
      intros Ht.
    + assert (t = "**Abstract:** " +:+ slice_to 200 a +:+ "...") as ->
        by congruence.
      rewrite !text_length_app, slice_to_length.
      change (String.length "**Abstract:** ") with 14%nat.
      change (String.length "...") with 3%nat.
      split; [lia|]. split; [lia|]. intros _. split; [done | lia].
    + assert (t = a) as -> by congruence.
      split; [lia|]. split; [done | lia].
  - intros body t. unfold snippet_text. intros Ht.
    assert (t = "**Snippet:** " +:+ slice_to 150 body +:+ "...") as ->
      by congruence.
    rewrite !text_length_app, slice_to_length.
    change (String.length "**Snippet:** ") with 13%nat.
    change (String.length "...") with 3%nat. lia.
Qed.

Lemma X12_lengths_of_the_written_lines_witness :
  (String.length "The dominant sequence models" <= 217)%nat
  /\ ((String.length "The dominant sequence models" <= 200)%nat ->
      "The dominant sequence models" = "The dominant sequence models")
  /\ ((200 < String.length "The dominant sequence models")%nat ->
      "The dominant sequence models"
      = "**Abstract:** " +:+ slice_to 200 "The dominant sequence models" +:+ "..."
      /\ String.length "The dominant sequence models" = 217%nat).
Proof.
  apply (proj1 X12_lengths_of_the_written_lines "The dominant sequence models").
  reflexivity.
Defined.

(** ** The loops of the page *)

Lemma for_enumerate_cons {A : Type} (body : Z -> A -> UI unit) (i : Z)
  (x : A) (l : list A) (t : nat) :
  for_enumerate body i (x :: l) t
  = match body i x t with
    | (evs, t', Ok _) =>
        let '(evs', t'', r) := for_enumerate body (i + 1) l t' in
        ((evs ++ evs')%list, t'', r)
    | (evs, t', Raise e) => (evs, t', Raise e)
    end.
Proof. reflexivity. Qed.

(** A web record that can be shown adds its three lines to the page. *)
Lemma show_web_result_ok (result : result_dict) (t : nat) :
  web_ok result = true ->
  exists title body href,
    result !! "title" = Some title /\ result !! "body" = Some (SStr body)
    /\ result !! "href" = Some href
    /\ show_web_result result t
       = ([StExpander ("**" +:+ text_of title +:+ "**");
           StWrite ("**Snippet:** " +:+ slice_to 150 body +:+ "...");
           StMarkdown ("[Visit Site](" +:+ text_of href +:+ ")")], t, Ok tt).
Proof.
  unfold web_ok, show_web_result, item. unfold_ui_monad. unfold res_bind.
  destruct (result !! "title") as [title|]; [|done].
  destruct (result !! "body") as [[| |body]|]; try done.
  destruct (result !! "href") as [href|]; [|done].
  rewrite !str_spec. intros [-> ->]%andb_true_iff.
  by exists title, body, href.
Qed.

(** One that cannot be shown ends the run with [KeyError] (a key is
    missing), [TypeError] (the body is not a text) or [ValueError] (the
    title or the link is an integer beyond the limit). *)
Lemma show_web_result_bad (result : result_dict) (t : nat) :
  web_ok result = false ->
  exists evs e,
    show_web_result result t = (evs, t, Raise e)
    /\ (e = KeyError \/ e = TypeError \/ e = ValueError).
Proof.
  unfold web_ok, show_web_result, item. unfold_ui_monad. unfold res_bind.
  destruct (result !! "title") as [title|];
    [|by intros _; eexists _, _; split; [reflexivity | auto]].
  rewrite (str_spec title).
  destruct (formattable title);
    [|by intros _; eexists _, _; split; [reflexivity | auto]].
  destruct (result !! "body") as [[| |body]|];
    try by (intros _; eexists _, _; split; [reflexivity | auto]).
  destruct (result !! "href") as [href|];
    [|by intros _; eexists _, _; split; [reflexivity | auto]].
  rewrite (str_spec href).
  destruct (formattable href); [done|].
  intros _. eexists _, _. split; [reflexivity | auto].
Qed.

Lemma web_loop_ok (l : list result_dict) :
  Forall (fun r => web_ok r = true) l ->
  forall (i : Z) (t : nat),
    for_enumerate (fun _ => show_web_result) i l t
    = (concat (web_lines <$> l), t, Ok tt).
Proof.
  induction 1 as [|r l Hr Hl IH]; intros i t; [done|].
  rewrite for_enumerate_cons.
  destruct (show_web_result_ok r t Hr) as (title & body & href & Ht & Hb & Hh & ->).
  rewrite IH. rewrite fmap_cons. cbn [concat].
  unfold web_lines. by rewrite Ht, Hb, Hh.
Qed.

Lemma web_loop_outcome (l : list result_dict) :
  forall (i : Z) (t : nat),
    snd (for_enumerate (fun _ => show_web_result) i l t) = Ok tt
    <-> Forall (fun r => web_ok r = true) l.
Proof.
  induction l as [|r l IH]; intros i t; [done|].
  rewrite for_enumerate_cons. rewrite Forall_cons.
  destruct (web_ok r) eqn:Hr.
  - destruct (show_web_result_ok r t Hr) as (? & ? & ? & _ & _ & _ & ->).
    specialize (IH (i + 1) t).
    destruct (for_enumerate _ (i + 1) l t) as [[evs t'] out]. simpl in *.
    rewrite IH. tauto.
  - destruct (show_web_result_bad r t Hr) as (evs & e & -> & _). simpl.
    split; [done | intros [? _]; done].
Qed.

(** X13: the web branch shows what the provider returns, all of it: when
    every record has a title and a link that can be formatted (any value
    but an integer of more than 4300 digits) and a body text, the page is
    the call
    to the provider with the limit as [max_results], the heading, three
    lines per record and, unless there is no record, the CSV button named
    after one reading of the clock.  The branch itself does not cut the
    answer down to the limit.  It ends without an exception exactly when
    every record can be shown. *)
Theorem X13_web_page (env : Env) (num_results : Z) (query : string) (t : nat) :
  (snd (web_branch env num_results query t) = Ok tt
   <-> Forall (fun r => web_ok r = true) (ddgs_text env query num_results))
  /\ (Forall (fun r => web_ok r = true) (ddgs_text env query num_results) ->
      web_branch env num_results query t
      = (CallDdgsText query num_results
         :: StSubheader ("Web Results for '" +:+ query +:+ "'")
         :: concat (web_lines <$> ddgs_text env query num_results)
         ++ match ddgs_text env query num_results with
            | [] => []
            | _ :: _ =>
                [StDownloadButton "Download as CSV"
                   (to_csv env (ddgs_text env query num_results))
                   ("web_results_" +:+ strftime_now env t +:+ ".csv") None]
            end,
         match ddgs_text env query num_results with
         | [] => t
         | _ :: _ => S t
         end,
         Ok tt)).
Proof.
  unfold web_branch. unfold_ui_monad. cbn zeta.
  generalize (ddgs_text env query num_results). intros l.
  split.
  - rewrite <- (web_loop_outcome l 0 t).
    destruct (for_enumerate _ 0 l t) as [[evs t'] [[]|e]]; simpl; [|done].
    unfold csv_button. unfold_ui_monad. by destruct l.
  - intros Hl. rewrite (web_loop_ok l Hl 0 t).
    unfold csv_button. unfold_ui_monad. destruct l; [|reflexivity].
    cbn [fmap list_fmap concat app]. reflexivity.
Qed.

Lemma X13_web_page_witness :
  web_branch (Samples.env_of [] "20240101_000000") 1 "x" 0%nat
  = ([CallDdgsText "x" 1; StSubheader "Web Results for 'x'";
      StExpander "**X**"; StWrite "**Snippet:** abc...";
      StMarkdown "[Visit Site](http://x)";
      StDownloadButton "Download as CSV" "" "web_results_20240101_000000.csv"
        None], 1%nat, Ok tt).
Proof.
  apply (proj2 (X13_web_page (Samples.env_of [] "20240101_000000") 1 "x" 0%nat)).
  by repeat constructor.
Defined.

(** ** Calls to the providers *)

Lemma for_enumerate_Forall {A : Type} (P : event -> Prop)
  (body : Z -> A -> UI unit) (l : list A) :
  (forall i x t, Forall P (fst (fst (body i x t)))) ->
  forall i t, Forall P (fst (fst (for_enumerate body i l t))).
Proof.
  intros Hbody. induction l as [|x l IH]; intros i t; [constructor|].
  rewrite for_enumerate_cons. specialize (Hbody i x t).
  destruct (body i x t) as [[evs t'] [[]|e]]; [|done].
  specialize (IH (i + 1) t').
  destruct (for_enumerate body (i + 1) l t') as [[evs' t''] r].
  simpl in *. by apply Forall_app.
Qed.

Lemma show_scholar_result_no_provider (env : Env) (idx : Z)
  (result : result_dict) (t : nat) :
  Forall (fun ev => is_provider_call ev = false)
    (fst (fst (show_scholar_result env idx result t))).
Proof.
  unfold show_scholar_result.
  generalize (item result "Title" ≫= str) (item result "Cited By" ≫= str)
    (item result "Authors" ≫= str) (item result "Year" ≫= str).
  intros title cited authors year. unfold_ui_monad.
  destruct title; [|by repeat constructor].
  destruct cited; [|by repeat constructor].
  destruct authors; [|by repeat constructor].
  destruct year; [|by repeat constructor].
  destruct (item result "Abstract") as [abstract|]; [|by repeat constructor].
  destruct (abstract_text abstract); [|by repeat constructor].
  destruct (item result "URL") as [u|]; [|by repeat constructor].
  destruct (truthy u); [destruct (str u); [|by repeat constructor]|];
    (destruct (generate_bibtex result idx) as [[text|err] d];
     [|by repeat constructor]);
    destruct (str_of_int (idx + 1)); by repeat constructor.
Qed.

Lemma show_web_result_no_provider (result : result_dict) (t : nat) :
  Forall (fun ev => is_provider_call ev = false)
    (fst (fst (show_web_result result t))).
Proof.
  unfold show_web_result.
  generalize (item result "title" ≫= str) (item result "href" ≫= str).
  intros title href. unfold_ui_monad.
  destruct title; [|by repeat constructor].
  destruct (item result "body") as [body|]; [|by repeat constructor].
  destruct (snippet_text body); [|by repeat constructor].
  destruct href; by repeat constructor.
Qed.

Lemma csv_button_no_provider (env : Env) (prefix : string)
  (rows : list result_dict) (t : nat) :
  Forall (fun ev => is_provider_call ev = false)
    (fst (fst (csv_button env prefix rows t))).
Proof. destruct rows; by repeat constructor. Qed.

Lemma filter_provider_other (ev : event) (evs : list event) :
  is_provider_call ev = false ->
  filter is_provider_call (ev :: evs) = filter is_provider_call evs.
Proof. intros H. apply filter_cons_False. rewrite H. exact id. Qed.

Lemma filter_provider_call (ev : event) (evs : list event) :
  is_provider_call ev = true ->
  filter is_provider_call (ev :: evs) = ev :: filter is_provider_call evs.
Proof. intros H. apply filter_cons_True. rewrite H. exact I. Qed.

Lemma filter_provider_none (evs : list event) :
  Forall (fun ev => is_provider_call ev = false) evs ->
  filter is_provider_call evs = [].
Proof.
  induction 1 as [|ev evs Hev _ IH]; [done|].
  by rewrite filter_provider_other.
Qed.

(** X14: a press of the button with a query that is not empty calls
    exactly one provider, once: [scholarly.search_pubs] with the query
    when the search type is Google Scholar, and [DDGS().text] with the
    query and the limit for any other search type; this holds also when
    the run ends with an exception. *)
Theorem X14_one_provider_call (env : Env) (search_type : string)
  (num_results : Z) (query : string) :
  query <> "" ->
  filter is_provider_call (calls (on_search env search_type num_results query))
  = [if String.eqb search_type "Google Scholar"
     then CallSearchPubs query
     else CallDdgsText query num_results].
Proof.
  intros Hq. unfold on_search, calls.
  destruct (String.eqb_spec query ""); [done|]. cbn [negb].
  destruct (String.eqb search_type "Google Scholar").
  - unfold scholar_branch. unfold_ui_monad.
    destruct (scholar_results _ _) as [results|]; [|done].
    pose proof (for_enumerate_Forall _ _ results
                  (show_scholar_result_no_provider env) 0 0%nat) as Hloop.
    destruct (for_enumerate _ 0 results 0%nat) as [[evs t'] [[]|]];
      simpl in Hloop.
    + pose proof (csv_button_no_provider env "scholar_results_" results t') as Hcsv.
      destruct (csv_button _ _ _ _) as [[evs' t''] out]. simpl in *.
      rewrite filter_provider_other, filter_provider_call,
        filter_provider_other by reflexivity.
      by rewrite filter_app, !filter_provider_none.
    + simpl. rewrite filter_provider_other, filter_provider_call,
        filter_provider_other by reflexivity.
      by rewrite filter_provider_none.
  - unfold web_branch. unfold_ui_monad. cbn zeta.
    pose proof (for_enumerate_Forall _ _ (ddgs_text env query num_results)
                  (fun _ => show_web_result_no_provider) 0 0%nat) as Hloop.
    destruct (for_enumerate _ 0 _ 0%nat) as [[evs t'] [[]|]]; simpl in Hloop.
    + pose proof (csv_button_no_provider env "web_results_"
                    (ddgs_text env query num_results) t') as Hcsv.
      destruct (csv_button _ _ _ _) as [[evs' t''] out]. simpl in *.
      rewrite filter_provider_other, filter_provider_call,
        filter_provider_other by reflexivity.
      by rewrite filter_app, !filter_provider_none.
    + simpl. rewrite filter_provider_other, filter_provider_call,
        filter_provider_other by reflexivity.
      by rewrite filter_provider_none.
Qed.

Lemma X14_one_provider_call_witness :
  filter is_provider_call
    (calls (on_search (Samples.env_of [Samples.deep_learning; Samples.malformed]
                         "20240101_000000") "Web (DuckDuckGo)" 5 "learning"))
  = [CallDdgsText "learning" 5].
Proof.
  apply (X14_one_provider_call
           (Samples.env_of [Samples.deep_learning; Samples.malformed]
              "20240101_000000") "Web (DuckDuckGo)" 5 "learning").
  discriminate.
Defined.

(** ** Exceptions of the Scholar branch *)

Lemma for_enumerate_Raise {A : Type} (body : Z -> A -> UI unit) (l : list A)
  (e : error) :
  forall i t,
    snd (for_enumerate body i l t) = Raise e ->
    exists i' x t', x ∈ l /\ snd (body i' x t') = Raise e.
Proof.
  induction l as [|x l IH]; intros i t; [done|].
  rewrite for_enumerate_cons.
  destruct (body i x t) as [[evs t'] [[]|e']] eqn:Hbody.
  - specialize (IH (i + 1) t').
    destruct (for_enumerate body (i + 1) l t') as [[evs' t''] r]. simpl.
    intros (i' & y & t3 & Hy & Hr)%IH. exists i', y, t3. split; [by right | done].
  - simpl. intros [= ->]. exists i, x, t. split; [by left | by rewrite Hbody].
Qed.

Lemma abstract_text_Raise (a : scalar) (e : error) :
  abstract_text a = Raise e -> e = TypeError.
Proof.
  destruct a as [| |s]; simpl; try by intros [= <-].
  by destruct (200 <? _).
Qed.

Lemma normalized_lookups (result : result_dict) (pub : Scholarly.Publication) :
  normalize_pub pub = Ok result ->
  exists title cited names year abstract url,
    result !! "Title" = Some title /\ result !! "Cited By" = Some cited
    /\ result !! "Authors" = Some (SStr names) /\ result !! "Year" = Some year
    /\ result !! "Abstract" = Some abstract /\ result !! "URL" = Some url.
Proof.
  unfold normalize_pub, mbind, res_bind, mret, res_ret.
  destruct (join_values _ _) as [names|]; [|done]. intros [= <-].
  eexists _, _, names, _, _, _.
  repeat split;
    repeat (first [ by rewrite lookup_insert_eq
                  | rewrite lookup_insert_ne by done ]).
Qed.

Lemma str_Raise (v : scalar) (e : error) : str v = Raise e -> e = ValueError.
Proof. rewrite str_spec. destruct (formattable v); [done | by intros [= <-]]. Qed.

Lemma str_of_int_Raise (n : Z) (e : error) :
  str_of_int n = Raise e -> e = ValueError.
Proof. unfold str_of_int. destruct (too_long n); [by intros [= <-] | done]. Qed.

(** The page shows a normalized result or stops with [TypeError] (the
    abstract or the title is not a text), [IndexError] (the first author
    is blank) or [ValueError] (an integer is too long to be formatted). *)
Lemma show_normalized_Raise (env : Env) (pub : Scholarly.Publication)
  (result : result_dict) (idx : Z) (t : nat) (e : error) :
  normalize_pub pub = Ok result ->
  snd (show_scholar_result env idx result t) = Raise e ->
  e = TypeError \/ e = IndexError \/ e = ValueError.
Proof.
  intros Hnorm.
  destruct (normalized_lookups result pub Hnorm) as (title & cited & names & year & abstract
    & url & Ht & Hc & Ha & Hy & Hab & Hu).
  unfold show_scholar_result, item. rewrite Ht, Hc, Ha, Hy, Hab, Hu.
  unfold_ui_monad. unfold res_bind.
  destruct (str title) as [?|e1] eqn:E1;
    [|simpl; intros [= <-]; apply str_Raise in E1; auto].
  destruct (str cited) as [?|e1] eqn:E2;
    [|simpl; intros [= <-]; apply str_Raise in E2; auto].
  destruct (str (SStr names)) as [?|e1] eqn:E3;
    [|simpl; intros [= <-]; apply str_Raise in E3; auto].
  destruct (str year) as [?|e1] eqn:E4;
    [|simpl; intros [= <-]; apply str_Raise in E4; auto].
  destruct (abstract_text abstract) as [text|e'] eqn:Habs.
  2: { simpl. intros [= <-]. left. by apply abstract_text_Raise in Habs. }
  assert (forall e', fst (generate_bibtex result idx) = Raise e' ->
                     e' = TypeError \/ e' = IndexError \/ e' = ValueError) as Hbib.
  { intros e' [[-> _] | [(_ & _ & H) | [(-> & _) | (-> & _)]]]%bibtex_text_Raise;
      auto. by rewrite Ha in H. }
  destruct (truthy url).
  - destruct (str url) as [?|e1] eqn:E5;
      [|simpl; intros [= <-]; apply str_Raise in E5; auto].
    destruct (generate_bibtex result idx) as [[bib|e'] d];
      [|simpl; intros [= <-]; by apply Hbib].
    destruct (str_of_int (idx + 1)) as [?|e1] eqn:E6; [done|].
    simpl. intros [= <-]. apply str_of_int_Raise in E6. auto.
  - destruct (generate_bibtex result idx) as [[bib|e'] d];
      [|simpl; intros [= <-]; by apply Hbib].
    destruct (str_of_int (idx + 1)) as [?|e1] eqn:E6; [done|].
    simpl. intros [= <-]. apply str_of_int_Raise in E6. auto.
Qed.

Lemma scholar_results_Raise (num_results : Z)
  (search_query : list Scholarly.Publication) (e : error) :
  scholar_results num_results search_query = Raise e -> e = TypeError.
Proof.
  rewrite scholar_results_spec. intros (pub & _ & Hpub)%mapM_res_Raise.
  by apply normalize_pub_Raise in Hpub.
Qed.

Lemma csv_button_outcome (env : Env) (prefix : string)
  (rows : list result_dict) (t : nat) :
  snd (csv_button env prefix rows t) = Ok tt.
Proof. by destruct rows. Qed.

(** X15: the Scholar branch ends with [TypeError], [IndexError] or
    [ValueError] (an integer of more than 4300 digits is formatted) or
    without an exception.  It never ends with [KeyError], since the
    results it shows have the six keys it reads, nor with
    [AttributeError], since their Authors is a text, nor with
    [StopIteration]. *)
Theorem X15_scholar_branch_exceptions (env : Env) (num_results : Z)
  (query : string) (t : nat) (e : error) :
  snd (scholar_branch env num_results query t) = Raise e ->
  e = TypeError \/ e = IndexError \/ e = ValueError.
Proof.
  unfold scholar_branch. unfold_ui_monad.
  destruct (scholar_results num_results (search_pubs env query))
    as [batch|e'] eqn:Hq.
  2: { simpl. intros [= <-]. left.
       by apply scholar_results_Raise in Hq. }
  pose proof (for_enumerate_Raise (show_scholar_result env) batch e 0 t) as Hloop.
  destruct (for_enumerate _ 0 batch t) as [[evs t'] [[]|e']]; simpl in *.
  - pose proof (csv_button_outcome env "scholar_results_" batch t') as Hcsv.
    destruct (csv_button _ _ _ _) as [[evs' t''] out]. simpl in *.
    by rewrite Hcsv.
  - intros [= ->]. destruct (Hloop eq_refl) as (i' & r & t3 & Hr & Hshow).
    apply scholar_results_Ok in Hq.
    apply list_elem_of_lookup in Hr as [k Hk].
    destruct (Forall2_lookup_r _ _ _ _ _ Hq Hk) as (pub & _ & Hnorm).
    by apply (show_normalized_Raise env pub r i' t3).
Qed.

Lemma X15_scholar_branch_exceptions_witness :
  ValueError = TypeError \/ ValueError = IndexError \/ ValueError = ValueError.
Proof.
  apply (X15_scholar_branch_exceptions
           (Samples.env_of [Samples.deep_learning; Samples.long_year]
              "20240101_000000") 5 "notes" 0%nat).
  unfold Samples.long_year.
  generalize too_long_4301_digits. generalize (10 ^ 4300). intros year Hyear.
  vm_compute in Hyear. vm_compute. by rewrite Hyear.
Defined.

(** ** The download buttons of the Scholar branch *)

Lemma bibtex_file_names_app (evs evs' : list event) :
  bibtex_file_names (evs ++ evs')
  = (bibtex_file_names evs ++ bibtex_file_names evs')%list.
Proof. unfold bibtex_file_names. by rewrite omap_app, fmap_app. Qed.

(** A result that is shown gets one BibTeX button, named after its ordinal
    plus one and one reading of the clock. *)
Lemma show_scholar_result_Ok (env : Env) (idx : Z) (result : result_dict)
  (t : nat) :
  snd (show_scholar_result env idx result t) = Ok tt ->
  bibtex_file_names (fst (fst (show_scholar_result env idx result t)))
  = ["citation_" +:+ numeral (idx + 1) +:+ "_" +:+ strftime_now env t
     +:+ ".bib"]
  /\ snd (fst (show_scholar_result env idx result t)) = S t.
Proof.
  unfold show_scholar_result.
  generalize (item result "Title" ≫= str) (item result "Cited By" ≫= str)
    (item result "Authors" ≫= str) (item result "Year" ≫= str).
  intros title cited authors year. unfold_ui_monad.
  destruct title; [|done].
  destruct cited; [|done].
  destruct authors; [|done].
  destruct year; [|done].
  destruct (item result "Abstract") as [abstract|]; [|done].
  destruct (abstract_text abstract); [|done].
  destruct (item result "URL") as [u|]; [|done].
  unfold str_of_int.
  destruct (truthy u); [destruct (str u); [|done]|];
    (destruct (generate_bibtex result idx) as [[text|err] d]; [|done]);
    destruct (too_long (idx + 1)); done.
Qed.

Lemma scholar_loop_buttons (env : Env) (results : list result_dict) :
  forall (i : Z) (t : nat),
    snd (for_enumerate (show_scholar_result env) i results t) = Ok tt ->
    bibtex_file_names (fst (fst (for_enumerate (show_scholar_result env) i results t)))
    = imap (fun k _ => "citation_" +:+ numeral (i + Z.of_nat k + 1) +:+ "_"
                       +:+ strftime_now env (t + k) +:+ ".bib") results
    /\ snd (fst (for_enumerate (show_scholar_result env) i results t))
       = (t + length results)%nat.
Proof.
  induction results as [|r results IH]; intros i t.
  - intros _. simpl. split; [done | lia].
  - rewrite for_enumerate_cons.
    pose proof (show_scholar_result_Ok env i r t) as Hhead.
    destruct (show_scholar_result env i r t) as [[evs t'] [[]|e]]; [|done].
    destruct (Hhead eq_refl) as [Hnames Ht]. simpl in Hnames, Ht. subst t'.
    specialize (IH (i + 1) (S t)).
    destruct (for_enumerate _ (i + 1) results (S t)) as [[evs' t''] out].
    simpl. intros ->. destruct (IH eq_refl) as [IHn IHt]. simpl in IHn, IHt.
    split; [|lia].
    rewrite bibtex_file_names_app, Hnames, IHn. cbn [imap app].
    rewrite Z.add_0_r, Nat.add_0_r. f_equal.
    apply imap_ext. intros k x _. unfold compose.
    replace (i + Z.of_nat (S k) + 1) with (i + 1 + Z.of_nat k + 1) by lia.
    by replace (t + S k)%nat with (S t + k)%nat by lia.
Qed.

(** X16: when the Scholar branch ends without an exception, the page has
    one BibTeX button per result of the query, in order, the button of the
    result number [k] (from 0) being named [citation_], [k + 1], [_], the
    reading number [k] of the clock and [.bib]; the clock is read once per
    result and once more for the CSV button when there is a result. *)
Theorem X16_bibtex_buttons_of_a_batch (env : Env) (num_results : Z)
  (query : string) :
  outcome (scholar_branch env num_results query) = Ok tt ->
  exists batch,
    scholar_results num_results (search_pubs env query) = Ok batch
    /\ bibtex_file_names (calls (scholar_branch env num_results query))
       = imap (fun k _ => "citation_" +:+ numeral (Z.of_nat k + 1) +:+ "_"
                          +:+ strftime_now env k +:+ ".bib") batch
    /\ clock_readings (scholar_branch env num_results query)
       = (length batch + match batch with [] => 0 | _ :: _ => 1 end)%nat.
Proof.
  unfold outcome, calls, clock_readings, scholar_branch. unfold_ui_monad.
  destruct (scholar_results num_results (search_pubs env query))
    as [batch|e']; [|done].
  pose proof (scholar_loop_buttons env batch 0 0%nat) as Hloop.
  destruct (for_enumerate _ 0 batch 0%nat) as [[evs t'] [[]|e']]; [|done].
  destruct (Hloop eq_refl) as [Hnames Ht]. simpl in Hnames, Ht. subst t'.
  intros _. exists batch. split; [done|].
  unfold csv_button. unfold_ui_monad. destruct batch as [|r batch].
  - simpl in *. by rewrite app_nil_r.
  - cbn [fst snd]. split; [|simpl; lia].
    change (bibtex_file_names
              ([CallSearchPubs query]
               ++ [StSubheader ("Scholar Results for '" +:+ query +:+ "'")]
               ++ evs ++ [] ++ [StDownloadButton "Download as CSV"
                   (to_csv env (r :: batch))
                   ("scholar_results_"
                    +:+ strftime_now env (0 + length (r :: batch)) +:+ ".csv")
                   None])
            = imap (fun k _ => "citation_" +:+ numeral (Z.of_nat k + 1) +:+ "_"
                               +:+ strftime_now env k +:+ ".bib") (r :: batch)).
    rewrite !bibtex_file_names_app, Hnames.
    change (bibtex_file_names [CallSearchPubs query]) with (@nil string).
    change (bibtex_file_names [StSubheader _]) with (@nil string).
    change (bibtex_file_names []) with (@nil string).
    change (bibtex_file_names [StDownloadButton "Download as CSV" _ _ _])
      with (@nil string).
    rewrite app_nil_r. done.
Qed.

Lemma X16_bibtex_buttons_of_a_batch_witness :
  exists batch,
    scholar_results 2
      (search_pubs (Samples.env_of
                      [Samples.deep_learning; Samples.attention;
                       Samples.attention; Samples.deep_learning]
                      "20240101_000000") "learning")
    = Ok batch
    /\ bibtex_file_names
         (calls (scholar_branch
                   (Samples.env_of
                      [Samples.deep_learning; Samples.attention;
                       Samples.attention; Samples.deep_learning]
                      "20240101_000000") 2 "learning"))
       = imap (fun k _ => "citation_" +:+ numeral (Z.of_nat k + 1) +:+ "_"
                          +:+ "20240101_000000" +:+ ".bib") batch
    /\ clock_readings
         (scholar_branch
            (Samples.env_of
               [Samples.deep_learning; Samples.attention;
                Samples.attention; Samples.deep_learning]
               "20240101_000000") 2 "learning")
       = (length batch + match batch with [] => 0 | _ :: _ => 1 end)%nat.
Proof.
  apply (X16_bibtex_buttons_of_a_batch
           (Samples.env_of
              [Samples.deep_learning; Samples.attention;
               Samples.attention; Samples.deep_learning]
              "20240101_000000") 2 "learning").
  reflexivity.
Defined.

(** ** Edges of the Scholar page *)

(** X17: a Scholar search whose provider yields fewer than two records,
    or whose limit is 0 or less, shows the spinner, calls the provider,
    writes the heading and nothing more: no result, no CSV button, no
    exception, even when the one record is malformed. *)
Theorem X17_scholar_page_without_results (env : Env) (num_results : Z)
  (query : string) (t : nat) :
  query <> "" ->
  num_results <= 0 \/ (length (search_pubs env query) <= 1)%nat ->
  on_search env "Google Scholar" num_results query t
  = ([StSpinner "Fetching results..."; CallSearchPubs query;
      StSubheader ("Scholar Results for '" +:+ query +:+ "'")], t, Ok tt).
Proof.
  intros Hq Hshort. unfold on_search.
  destruct (String.eqb_spec query ""); [done|]. cbn [negb].
  change (String.eqb "Google Scholar" "Google Scholar") with true. cbn iota.
  unfold scholar_branch. unfold_ui_monad.
  by rewrite (short_query_no_results _ _ Hshort).
Qed.

Lemma X17_scholar_page_without_results_witness :
  on_search (Samples.env_of [Samples.malformed] "20240101_000000")
    "Google Scholar" 10 "draft" 0%nat
  = ([StSpinner "Fetching results..."; CallSearchPubs "draft";
      StSubheader "Scholar Results for 'draft'"], 0%nat, Ok tt).
Proof.
  apply (X17_scholar_page_without_results
           (Samples.env_of [Samples.malformed] "20240101_000000") 10 "draft" 0%nat);
    [discriminate | right; simpl; lia].
Defined.

(** X18: the link of a result.  For a publication without an e-print link
    and without a publication-page link the URL of the result is N/A, which
    the page takes for a link: it writes [View Paper] with the target N/A.
    For a publication whose e-print link is the empty text the page writes
    no link.  In both cases the url field of the BibTeX entry is N/A. *)
Theorem X18_link_of_a_result (env : Env) (pub : Scholarly.Publication)
  (result : result_dict) (idx : Z) (e : entry) :
  normalize_pub pub = Ok result ->
  entry_of result idx = Ok e ->
  outcome (show_scholar_result env idx result) = Ok tt ->
  (Scholarly.eprint_url pub = None -> Scholarly.pub_url pub = None ->
   StMarkdown "[View Paper](N/A)" ∈ calls (show_scholar_result env idx result)
   /\ bibtex_url e = "N/A")
  /\ (Scholarly.eprint_url pub = Some (SStr "") ->
      filter is_markdown (calls (show_scholar_result env idx result)) = []
      /\ bibtex_url e = "N/A").
Proof.
  intros Hnorm He.
  assert (result !! "URL"
          = Some (default (default (SStr "N/A") (Scholarly.pub_url pub))
                    (Scholarly.eprint_url pub))) as Hurl.
  { revert Hnorm. unfold normalize_pub, mbind, res_bind, mret, res_ret.
    destruct (join_values _ _); [|done]. intros [= <-].
    rewrite !lookup_insert_ne by done. by rewrite lookup_insert_eq. }
  apply entry_of_Ok in He as (title & al & fa & _ & _ & _ & ->).
  cbn [bibtex_url]. unfold url_in. rewrite Hurl.
  unfold outcome, calls, show_scholar_result.
  generalize (item result "Title" ≫= str) (item result "Cited By" ≫= str)
    (item result "Authors" ≫= str) (item result "Year" ≫= str).
  intros rt rc ra ry. unfold item. rewrite Hurl. unfold_ui_monad.
  destruct rt; [|done]. destruct rc; [|done].
  destruct ra; [|done]. destruct ry; [|done].
  destruct (result !! "Abstract") as [abstract|]; [|done].
  destruct (abstract_text abstract); [|done].
  intros Hout. split.
  - intros He Hp. rewrite He, Hp in *. cbn [default truthy] in *.
    split; [|done].
    change (negb (String.eqb "N/A" "")) with true in *. cbn iota in *.
    change (str (SStr "N/A")) with (Ok "N/A" : res string) in *.
    destruct (generate_bibtex result idx) as [[text|err] d]; [|done].
    destruct (str_of_int (idx + 1)); [|done].
    cbn [fst app].
    do 4 apply list_elem_of_further. apply list_elem_of_here.
  - intros He. rewrite He in *. cbn [default truthy] in *. split; [|done].
    change (negb (String.eqb "" "")) with false in *. cbn iota in *.
    destruct (generate_bibtex result idx) as [[text|err] d]; [|done].
    destruct (str_of_int (idx + 1)); done.
Qed.

Lemma X18_link_of_a_result_witness :
  filter is_markdown
    (calls (show_scholar_result (Samples.env_of [] "20240101_000000") 0
              Samples.goodfellow)) = []
  /\ bibtex_url (Entry "Goodfellow20160" "Deep Learning"
                   "Ian Goodfellow and Yoshua Bengio" "2016" "N/A") = "N/A".
Proof.
  apply (X18_link_of_a_result (Samples.env_of [] "20240101_000000")
           Samples.deep_learning Samples.goodfellow 0);
    reflexivity.
Defined.
